(** * Restaurant voice agents: hand-off protocol, shared user data and
      chat-history truncation of [02_restaurant_agent.py]

    The development embeds the orchestration core of the restaurant agent:
    the chat items and the history truncation of [BaseAgent], the shared
    [UserData] record with the tools that mutate it, the hand-off helper
    [_transfer_to_agent], the on-enter routine and a small model of the
    session that owns the current-agent pointer. *)

From Stdlib Require Import ZArith String List Bool Lia SpecFloat.
From stdpp Require Import base option list strings gmap.

Local Open Scope string_scope.
Local Open Scope list_scope.
Local Open Scope Z_scope.

(** ** Chat items *)

(** Roles of a [message] item. *)
Inductive Role := system | user | assistant.

(** [llm.ChatItem]: the three variants the truncation distinguishes through
    [item.type].  Every variant carries the item's [id]; a function call and
    its output both carry the [name] of the tool. *)
Inductive ChatItem :=
| message (id : string) (role : Role) (content : string)
| function_call (id : string) (call_id name arguments : string)
| function_call_output (id : string) (name call_id output : string).

Definition item_id (item : ChatItem) : string :=
  match item with
  | message i _ _ => i
  | function_call i _ _ _ => i
  | function_call_output i _ _ _ => i
  end.

(** [item.type == "message" and item.role == "system"] *)
Definition is_system_message (item : ChatItem) : bool :=
  match item with
  | message _ system _ => true
  | _ => false
  end.

(** [item.type in ["function_call", "function_call_output"]] *)
Definition is_function_item (item : ChatItem) : bool :=
  match item with
  | function_call _ _ _ _ | function_call_output _ _ _ _ => true
  | message _ _ _ => false
  end.

(** [item.name] of a function item; a message has none. *)
Definition item_tool_name (item : ChatItem) : option string :=
  match item with
  | function_call _ _ name _ => Some name
  | function_call_output _ name _ _ => Some name
  | message _ _ _ => None
  end.

(** ** Python values used by the shared record *)

(** A Python [float]: an IEEE 754 value. *)
Abbreviation float := spec_float.

(** [bool(x)] for a float: every value but the two zeros is true (a NaN
    included). *)
Definition float_truth (x : float) : bool :=
  match x with
  | S754_zero _ => false
  | _ => true
  end.

(** [0 <= x] on floats; false on a NaN. *)
Definition float_nonneg (x : float) : bool := SFleb (S754_zero false) x.

(** [bool(x)] for an optional value with truth function [truth]: [None] is
    false. *)
Definition opt_truth {A} (truth : A -> bool) (x : option A) : bool :=
  match x with
  | None => false
  | Some a => truth a
  end.

(** [bool(s)] for a string: the empty string is false. *)
Definition str_truth (s : string) : bool :=
  match s with
  | EmptyString => false
  | String _ _ => true
  end.

(** [bool(l)] for a list. *)
Definition list_truth {A} (l : list A) : bool :=
  match l with
  | [] => false
  | _ :: _ => true
  end.

(** ** Agents and the shared user data *)

(** The four agent instances that [entrypoint] creates, one per class. *)
Inductive Agent := Greeter | Reservation | Takeaway | Checkout.

#[global] Instance Agent_eq_dec : EqDecision Agent.
Proof. solve_decision. Defined.

(** [self.__class__.__name__] *)
Definition class_name (a : Agent) : string :=
  match a with
  | Greeter => "Greeter"
  | Reservation => "Reservation"
  | Takeaway => "Takeaway"
  | Checkout => "Checkout"
  end.

(** The names of the tools an agent has: the [tools=[...]] of its
    constructor and its own [@function_tool] methods. *)
Definition tool_names (a : Agent) : list string :=
  match a with
  | Greeter => ["to_reservation"; "to_takeaway"]
  | Reservation =>
      ["update_name"; "update_phone"; "to_greeter";
       "update_reservation_time"; "confirm_reservation"]
  | Takeaway => ["to_greeter"; "update_order"; "to_checkout"]
  | Checkout =>
      ["update_name"; "update_phone"; "to_greeter"; "confirm_expense";
       "update_credit_card"; "confirm_checkout"; "to_takeaway"]
  end.

(** Modelled from the spec: [src/models.py], which declares [UserData], is
    not among the sources.  The fields are the ones the tools read and write
    ([userdata.customer_name], ..., [userdata.prev_agent], [userdata.agents])
    with the types of the spec's data model: optional strings, an order that
    is a sequence of strings, an optional expense, a boolean [checked_out],
    an optional reference to the previous agent and the registry from agent
    names to agents. *)
Record UserData := mkUserData {
  customer_name : option string;
  customer_phone : option string;
  reservation_time : option string;
  order : list string;
  expense : option float;
  customer_credit_card : option string;
  customer_credit_card_expiry : option string;
  customer_credit_card_cvv : option string;
  checked_out : bool;
  prev_agent : option Agent;
  agents : gmap string Agent
}.

(** Attribute assignments [userdata.<field> = v]. *)
Definition set_customer_name (v : option string) (u : UserData) : UserData :=
  mkUserData v (customer_phone u) (reservation_time u) (order u) (expense u)
    (customer_credit_card u) (customer_credit_card_expiry u)
    (customer_credit_card_cvv u) (checked_out u) (prev_agent u) (agents u).

Definition set_customer_phone (v : option string) (u : UserData) : UserData :=
  mkUserData (customer_name u) v (reservation_time u) (order u) (expense u)
    (customer_credit_card u) (customer_credit_card_expiry u)
    (customer_credit_card_cvv u) (checked_out u) (prev_agent u) (agents u).

Definition set_reservation_time (v : option string) (u : UserData) : UserData :=
  mkUserData (customer_name u) (customer_phone u) v (order u) (expense u)
    (customer_credit_card u) (customer_credit_card_expiry u)
    (customer_credit_card_cvv u) (checked_out u) (prev_agent u) (agents u).

Definition set_order (v : list string) (u : UserData) : UserData :=
  mkUserData (customer_name u) (customer_phone u) (reservation_time u) v
    (expense u) (customer_credit_card u) (customer_credit_card_expiry u)
    (customer_credit_card_cvv u) (checked_out u) (prev_agent u) (agents u).

Definition set_expense (v : option float) (u : UserData) : UserData :=
  mkUserData (customer_name u) (customer_phone u) (reservation_time u)
    (order u) v (customer_credit_card u) (customer_credit_card_expiry u)
    (customer_credit_card_cvv u) (checked_out u) (prev_agent u) (agents u).

Definition set_customer_credit_card (v : option string) (u : UserData) : UserData :=
  mkUserData (customer_name u) (customer_phone u) (reservation_time u)
    (order u) (expense u) v (customer_credit_card_expiry u)
    (customer_credit_card_cvv u) (checked_out u) (prev_agent u) (agents u).

Definition set_customer_credit_card_expiry (v : option string) (u : UserData) : UserData :=
  mkUserData (customer_name u) (customer_phone u) (reservation_time u)
    (order u) (expense u) (customer_credit_card u) v
    (customer_credit_card_cvv u) (checked_out u) (prev_agent u) (agents u).

Definition set_customer_credit_card_cvv (v : option string) (u : UserData) : UserData :=
  mkUserData (customer_name u) (customer_phone u) (reservation_time u)
    (order u) (expense u) (customer_credit_card u)
    (customer_credit_card_expiry u) v (checked_out u) (prev_agent u) (agents u).

Definition set_checked_out (v : bool) (u : UserData) : UserData :=
  mkUserData (customer_name u) (customer_phone u) (reservation_time u)
    (order u) (expense u) (customer_credit_card u)
    (customer_credit_card_expiry u) (customer_credit_card_cvv u) v
    (prev_agent u) (agents u).

Definition set_prev_agent (v : option Agent) (u : UserData) : UserData :=
  mkUserData (customer_name u) (customer_phone u) (reservation_time u)
    (order u) (expense u) (customer_credit_card u)
    (customer_credit_card_expiry u) (customer_credit_card_cvv u)
    (checked_out u) v (agents u).

Definition set_agents (v : gmap string Agent) (u : UserData) : UserData :=
  mkUserData (customer_name u) (customer_phone u) (reservation_time u)
    (order u) (expense u) (customer_credit_card u)
    (customer_credit_card_expiry u) (customer_credit_card_cvv u)
    (checked_out u) (prev_agent u) v.

(** What the source takes from Python and from the missing [UserData]
    class without defining it: the text an f-string puts for a float and for
    a list of strings, and [UserData.summarize]. *)
Class Rendering := {
  repr_float : float -> string;
  repr_str_list : list string -> string;
  summarize : UserData -> string
}.

(** ** Tools: a state and error monad over the run context

    A tool receives a [RunContext]: it reads [context.session.current_agent],
    reads and writes the shared [context.userdata], and either returns or
    raises.  A write made before a raise stays made. *)

Inductive Exn := KeyError (key : string).

Definition Tool (A : Type) : Type :=
  Agent -> UserData -> UserData * (Exn + A).

Definition ret {A} (a : A) : Tool A := fun _ u => (u, inr a).

Definition bind {A B} (m : Tool A) (k : A -> Tool B) : Tool B :=
  fun cur u =>
    match m cur u with
    | (u', inr a) => k a cur u'
    | (u', inl e) => (u', inl e)
    end.

Definition raise {A} (e : Exn) : Tool A := fun _ u => (u, inl e).

(** [context.userdata] *)
Definition get_userdata : Tool UserData := fun _ u => (u, inr u).

(** An attribute assignment on the shared record. *)
Definition assign (f : UserData -> UserData) : Tool unit :=
  fun _ u => (f u, inr tt).

(** [context.session.current_agent] *)
Definition get_current_agent : Tool Agent := fun cur u => (u, inr cur).

(** [d[key]] on a dict: a missing key raises [KeyError]. *)
Definition subscript (d : gmap string Agent) (key : string) : Tool Agent :=
  match d !! key with
  | Some a => ret a
  | None => raise (KeyError key)
  end.

Declare Scope tool_scope.
Delimit Scope tool_scope with tool.
Notation "x <- m ;; k" := (bind m (fun x => k))
  (at level 100, m at next level, right associativity) : tool_scope.
Notation "m ;; k" := (bind m (fun _ => k))
  (at level 100, right associativity) : tool_scope.

(** What a tool hands back to the session: a plain string, or the pair of
    the next agent and a message. *)
Inductive ToolResult :=
| Str (s : string)
| Handoff (next_agent : Agent) (msg : string).

Definition handoff (p : Agent * string) : ToolResult := Handoff p.1 p.2.

(** ** The base class [BaseAgent] *)

Module BaseAgent.

(** *** History truncation *)

(** The nested helper [_valid_item], closed over the two retention flags. *)
Definition _valid_item (keep_system_message keep_function_call : bool)
    (item : ChatItem) : bool :=
  if negb keep_system_message && is_system_message item then false
  else if negb keep_function_call && is_function_item item then false
  else true.

(** The [for item in reversed(items)] loop.  [pending] is what is left of the
    reversed input; [new_items] is the accumulator.  The bound is tested
    after the append, exactly where the source has its [break]. *)
Fixpoint collect (valid : ChatItem -> bool) (keep_last_n_messages : Z)
    (pending new_items : list ChatItem) : list ChatItem :=
  match pending with
  | [] => new_items
  | item :: rest =>
      let new_items' := if valid item then new_items ++ [item] else new_items in
      if Z.of_nat (length new_items') >=? keep_last_n_messages
      then new_items'
      else collect valid keep_last_n_messages rest new_items'
  end.

(** The [while new_items and new_items[0].type in [...]: new_items.pop(0)]
    loop. *)
Fixpoint pop_leading (new_items : list ChatItem) : list ChatItem :=
  match new_items with
  | [] => []
  | item :: rest => if is_function_item item then pop_leading rest else new_items
  end.

(** The body of [_truncate_chat_ctx] with every parameter given. *)
Definition truncate_with (items : list ChatItem) (keep_last_n_messages : Z)
    (keep_system_message keep_function_call : bool) : list ChatItem :=
  let new_items :=
    collect (_valid_item keep_system_message keep_function_call)
            keep_last_n_messages (rev items) [] in
  let new_items := rev new_items in
  pop_leading new_items.

(** [_truncate_chat_ctx(items, keep_last_n_messages=6,
    keep_system_message=False, keep_function_call=False)]: an argument left
    out by the caller is [None] and takes the default of the signature. *)
Definition _truncate_chat_ctx (items : list ChatItem)
    (keep_last_n_messages : option Z)
    (keep_system_message keep_function_call : option bool) : list ChatItem :=
  truncate_with items
    (default 6 keep_last_n_messages)
    (default false keep_system_message)
    (default false keep_function_call).

(** *** Hand-off *)

(** [_transfer_to_agent(self, name, context)]: the registry is read before
    [prev_agent] is written, so a missing name raises with the record as it
    was. *)
Definition _transfer_to_agent (name : string) : Tool (Agent * string) :=
  (userdata <- get_userdata ;;
   current_agent <- get_current_agent ;;
   next_agent <- subscript (agents userdata) name ;;
   assign (set_prev_agent (Some current_agent)) ;;
   ret (next_agent, "Transferring to " +:+ name +:+ "."))%tool.

(** *** Entering an agent *)

(** What [on_enter] does besides rewriting the agent's context. *)
Inductive Effect :=
| log_info (msg : string)
| generate_reply (tool_choice : string).

(** The session as the agents see it: the shared record, the current agent
    and the chat context of every agent. *)
Record Session := mkSession {
  session_userdata : UserData;
  session_current_agent : Agent;
  agent_chat_ctx : Agent -> list ChatItem
}.

(** The agent's live context is replaced; the other agents keep theirs. *)
Definition replace_chat_ctx (self : Agent) (chat_ctx : list ChatItem)
    (s : Session) : Session :=
  mkSession (session_userdata s) (session_current_agent s)
    (fun a => if decide (a = self) then chat_ctx else agent_chat_ctx s a).

(** Modelled from the spec: [ChatContext.copy(tools=...)] belongs to the
    voice framework, not to the sources.  It copies the items and leaves out
    every function_call and function_call_output item whose [name] is not
    in the set of the given tools' names. *)
Definition copy_with_tools (tools : list string) (items : list ChatItem)
    : list ChatItem :=
  let valid_tools : gset string := list_to_set tools in
  List.filter
    (fun item =>
       match item_tool_name item with
       | Some name => bool_decide (name ∈ valid_tools)
       | None => true
       end)
    items.

(** Modelled from the spec: [Agent.update_chat_ctx] belongs to the voice
    framework, not to the sources.  It replaces the agent's live context
    (the spec's on-enter step 4); called as [on_enter] calls it, with
    [exclude_invalid_function_calls] left at its default, it first copies
    the given context with the agent's tools, so the function items of
    tools the agent does not have are left out. *)
Definition update_chat_ctx (self : Agent) (chat_ctx : list ChatItem)
    (s : Session) : Session :=
  replace_chat_ctx self (copy_with_tools (tool_names self) chat_ctx) s.

(** [chat_ctx.add_message(role=..., content=...)]: the message goes to the
    end; [id] is the fresh id the library draws for it. *)
Definition add_message (id : string) (role : Role) (content : string)
    (chat_ctx : list ChatItem) : list ChatItem :=
  chat_ctx ++ [message id role content].

(** The context [on_enter] builds for [self]. *)
Definition entered_chat_ctx `{Rendering} (self : Agent) (new_id : string)
    (s : Session) : list ChatItem :=
  let agent_name := class_name self in
  let userdata := session_userdata s in
  let chat_ctx := agent_chat_ctx s self in
  let chat_ctx :=
    match prev_agent userdata with
    | Some prev =>
        let items_copy :=
          _truncate_chat_ctx (agent_chat_ctx s prev) None None (Some true) in
        let existing_ids : gset string := list_to_set (map item_id chat_ctx) in
        let items_copy :=
          List.filter (fun item => bool_decide (item_id item ∉ existing_ids))
                      items_copy in
        chat_ctx ++ items_copy
    | None => chat_ctx
    end in
  add_message new_id system
    ("Eres el agente " +:+ agent_name +:+
     ". Los datos actuales del usuario son " +:+ summarize userdata)
    chat_ctx.

(** [on_enter(self)] *)
Definition on_enter `{Rendering} (self : Agent) (new_id : string)
    (s : Session) : Session * list Effect :=
  (update_chat_ctx self (entered_chat_ctx self new_id s) s,
   [log_info ("entering task " +:+ class_name self); generate_reply "none"]).

End BaseAgent.

Export BaseAgent.

(** ** Tools shared by several agents *)

Definition update_name (name : string) : Tool ToolResult :=
  (assign (set_customer_name (Some name)) ;;
   ret (Str ("The name is updated to " +:+ name)))%tool.

Definition update_phone (phone : string) : Tool ToolResult :=
  (assign (set_customer_phone (Some phone)) ;;
   ret (Str ("The phone number is updated to " +:+ phone)))%tool.

Definition to_greeter : Tool ToolResult :=
  (curr_agent <- get_current_agent ;;
   r <- _transfer_to_agent "greeter" ;;
   ret (handoff r))%tool.

(** ** The four agents *)

Module Greeter.

Definition to_reservation : Tool ToolResult :=
  (r <- _transfer_to_agent "reservation" ;; ret (handoff r))%tool.

Definition to_takeaway : Tool ToolResult :=
  (r <- _transfer_to_agent "takeaway" ;; ret (handoff r))%tool.

End Greeter.

Module Reservation.

Definition update_reservation_time (time : string) : Tool ToolResult :=
  (assign (set_reservation_time (Some time)) ;;
   ret (Str ("The reservation time is updated to " +:+ time)))%tool.

Definition confirm_reservation : Tool ToolResult :=
  (userdata <- get_userdata ;;
   if negb (opt_truth str_truth (customer_name userdata))
      || negb (opt_truth str_truth (customer_phone userdata))
   then ret (Str "Please provide your name and phone number first.")
   else if negb (opt_truth str_truth (reservation_time userdata))
   then ret (Str "Please provide reservation time first.")
   else r <- _transfer_to_agent "greeter" ;; ret (handoff r))%tool.

End Reservation.

Module Takeaway.

Definition update_order `{Rendering} (items : list string) : Tool ToolResult :=
  (assign (set_order items) ;;
   ret (Str ("The order is updated to " +:+ repr_str_list items)))%tool.

Definition to_checkout : Tool ToolResult :=
  (userdata <- get_userdata ;;
   if negb (list_truth (order userdata))
   then ret (Str "No takeaway order found. Please make an order first.")
   else r <- _transfer_to_agent "checkout" ;; ret (handoff r))%tool.

End Takeaway.

Module Checkout.

Definition confirm_expense `{Rendering} (expense : float) : Tool ToolResult :=
  (assign (set_expense (Some expense)) ;;
   ret (Str ("The expense is confirmed to be " +:+ repr_float expense)))%tool.

Definition update_credit_card (number expiry cvv : string) : Tool ToolResult :=
  (assign (set_customer_credit_card (Some number)) ;;
   assign (set_customer_credit_card_expiry (Some expiry)) ;;
   assign (set_customer_credit_card_cvv (Some cvv)) ;;
   ret (Str ("The credit card number is updated to " +:+ number)))%tool.

Definition confirm_checkout : Tool ToolResult :=
  (userdata <- get_userdata ;;
   if negb (opt_truth float_truth (expense userdata))
   then ret (Str "Please confirm the expense first.")
   else if negb (opt_truth str_truth (customer_credit_card userdata))
           || negb (opt_truth str_truth (customer_credit_card_expiry userdata))
           || negb (opt_truth str_truth (customer_credit_card_cvv userdata))
   then ret (Str "Please provide the credit card information first.")
   else assign (set_checked_out true) ;; to_greeter)%tool.

Definition to_takeaway : Tool ToolResult :=
  (r <- _transfer_to_agent "takeaway" ;; ret (handoff r))%tool.

End Checkout.

(** ** Tool calls and the session *)

(** A tool call as the model issues it: the tool's name with its
    arguments. *)
Inductive ToolCall :=
| call_update_name (name : string)
| call_update_phone (phone : string)
| call_to_greeter
| call_to_reservation
| call_to_takeaway
| call_update_reservation_time (time : string)
| call_confirm_reservation
| call_update_order (items : list string)
| call_to_checkout
| call_confirm_expense (expense : float)
| call_update_credit_card (number expiry cvv : string)
| call_confirm_checkout.

(** The tools an agent offers: the [tools=[...]] of its constructor and its
    own [@function_tool] methods.  [None] when the agent has no tool of that
    name. *)
Definition find_tool `{Rendering} (a : Agent) (call : ToolCall)
    : option (Tool ToolResult) :=
  match a, call with
  | Greeter, call_to_reservation => Some Greeter.to_reservation
  | Greeter, call_to_takeaway => Some Greeter.to_takeaway
  | Reservation, call_update_name name => Some (update_name name)
  | Reservation, call_update_phone phone => Some (update_phone phone)
  | Reservation, call_to_greeter => Some to_greeter
  | Reservation, call_update_reservation_time time =>
      Some (Reservation.update_reservation_time time)
  | Reservation, call_confirm_reservation => Some Reservation.confirm_reservation
  | Takeaway, call_to_greeter => Some to_greeter
  | Takeaway, call_update_order items => Some (Takeaway.update_order items)
  | Takeaway, call_to_checkout => Some Takeaway.to_checkout
  | Checkout, call_update_name name => Some (update_name name)
  | Checkout, call_update_phone phone => Some (update_phone phone)
  | Checkout, call_to_greeter => Some to_greeter
  | Checkout, call_confirm_expense expense => Some (Checkout.confirm_expense expense)
  | Checkout, call_update_credit_card number expiry cvv =>
      Some (Checkout.update_credit_card number expiry cvv)
  | Checkout, call_confirm_checkout => Some Checkout.confirm_checkout
  | Checkout, call_to_takeaway => Some Checkout.to_takeaway
  | _, _ => None
  end.

(** The name a hand-off tool passes to [_transfer_to_agent]. *)
Definition target_name (call : ToolCall) : option string :=
  match call with
  | call_to_greeter | call_confirm_reservation | call_confirm_checkout =>
      Some "greeter"
  | call_to_reservation => Some "reservation"
  | call_to_takeaway => Some "takeaway"
  | call_to_checkout => Some "checkout"
  | _ => None
  end.

(** Modelled from the spec: the session that owns the current-agent pointer
    belongs to the voice framework, not to the sources.  Per the tool
    dispatcher's contract, a returned pair of agent and message makes the
    target the current agent; any other outcome (a string, an exception)
    leaves the current agent as it is. *)
Definition agent_after (current : Agent) (outcome : UserData * (Exn + ToolResult))
    : Agent :=
  match outcome.2 with
  | inr (Handoff next_agent _) => next_agent
  | _ => current
  end.

(** What the session receives between two looks at it. *)
Inductive Event :=
| tool_call (call : ToolCall) (new_id : string)
| chat_turn (items : list ChatItem).

(** Modelled from the spec: one event of the session.  A tool call is looked
    up among the current agent's tools and run against the shared record;
    after a hand-off the target is current and its [on_enter] runs, with
    [new_id] the id of the message [on_enter] adds.  A chat turn appends the
    turn's items to the current agent's context. *)
Definition handle `{Rendering} (ev : Event) (s : Session)
    : option (Session * list Effect) :=
  match ev with
  | tool_call call new_id =>
      match find_tool (session_current_agent s) call with
      | None => None
      | Some tool =>
          let outcome := tool (session_current_agent s) (session_userdata s) in
          let next := agent_after (session_current_agent s) outcome in
          let s' := mkSession outcome.1 next (agent_chat_ctx s) in
          match outcome.2 with
          | inr (Handoff _ _) => Some (on_enter next new_id s')
          | _ => Some (s', [])
          end
      end
  | chat_turn items =>
      let current := session_current_agent s in
      Some (replace_chat_ctx current (agent_chat_ctx s current ++ items) s, [])
  end.

Fixpoint run `{Rendering} (events : list Event) (s : Session) : option Session :=
  match events with
  | [] => Some s
  | ev :: rest =>
      match handle ev s with
      | None => None
      | Some (s', _) => run rest s'
      end
  end.

(** Modelled from the spec: [UserData()] with every optional field unset, an
    empty order, [checked_out] false and an empty registry. *)
Definition UserData_new : UserData :=
  mkUserData None None None [] None None None None false None ∅.

(** [entrypoint]: the record with its registry filled in, and the session
    started on the greeter, whose [on_enter] runs. *)
Definition entrypoint `{Rendering} (new_id : string) : Session * list Effect :=
  let userdata := UserData_new in
  let userdata :=
    set_agents
      (<["checkout" := Checkout]>
         (<["takeaway" := Takeaway]>
            (<["reservation" := Reservation]>
               (<["greeter" := Greeter]> (agents userdata)))))
      userdata in
  on_enter Greeter new_id (mkSession userdata Greeter (fun _ => [])).

(** The sessions a conversation can be in. *)
Definition reachable `{Rendering} (s : Session) : Prop :=
  exists new_id events, run events (entrypoint new_id).1 = Some s.

(** The window the scanning loop can fill: the bound is looked at only after
    an append, so one item gets through even when the bound is not
    positive. *)
Definition window (keep_last_n_messages : Z) : Z := Z.max keep_last_n_messages 1.

(** ** A specification of the on-enter context, after the spec's words

    Start from a copy of the agent's own context; if a previous agent is
    set, truncate its context, leave out every item whose id the copy
    already has, and append the rest in order; append one system message
    that carries the summary. *)

Definition id_occurs (chat_ctx : list ChatItem) (item : ChatItem) : bool :=
  existsb (String.eqb (item_id item)) (map item_id chat_ctx).

Definition spec_carried_over (own previous : list ChatItem) : list ChatItem :=
  List.filter (fun item => negb (id_occurs own item))
              (_truncate_chat_ctx previous None None (Some true)).

Definition spec_entered_chat_ctx (own : list ChatItem)
    (previous : option (list ChatItem)) (summary_message : ChatItem)
    : list ChatItem :=
  own ++ from_option (spec_carried_over own) [] previous ++ [summary_message].

(** The entered agent has the tool of a function item; a message passes. *)
Definition tool_is_offered (a : Agent) (item : ChatItem) : bool :=
  match item_tool_name item with
  | Some name => existsb (String.eqb name) (tool_names a)
  | None => true
  end.

(** The live context after entering: what was built, without the function
    items of tools the entered agent does not have. *)
Definition spec_live_chat_ctx (a : Agent) (built : list ChatItem)
    : list ChatItem :=
  List.filter (tool_is_offered a) built.

(** [needle] occurs in [text]. *)
Definition contains (text needle : string) : Prop :=
  exists before after, text = before +:+ needle +:+ after.

(** The guard of [confirm_checkout]: [expense] and the three card fields
    are all true in Python's sense. *)
Definition checkout_guard (u : UserData) : bool :=
  opt_truth float_truth (expense u)
  && opt_truth str_truth (customer_credit_card u)
  && opt_truth str_truth (customer_credit_card_expiry u)
  && opt_truth str_truth (customer_credit_card_cvv u).

(** The text of the message [on_enter] adds. *)
Definition entered_content `{Rendering} (self : Agent) (u : UserData) : string :=
  "Eres el agente " +:+ class_name self +:+
  ". Los datos actuales del usuario son " +:+ summarize u.

(** ** Fields of the record, for frame statements *)

Inductive Field :=
| f_customer_name | f_customer_phone | f_reservation_time | f_order
| f_expense | f_customer_credit_card | f_customer_credit_card_expiry
| f_customer_credit_card_cvv | f_checked_out | f_prev_agent | f_agents.

Definition same_field (f : Field) (u u' : UserData) : Prop :=
  match f with
  | f_customer_name => customer_name u' = customer_name u
  | f_customer_phone => customer_phone u' = customer_phone u
  | f_reservation_time => reservation_time u' = reservation_time u
  | f_order => order u' = order u
  | f_expense => expense u' = expense u
  | f_customer_credit_card => customer_credit_card u' = customer_credit_card u
  | f_customer_credit_card_expiry =>
      customer_credit_card_expiry u' = customer_credit_card_expiry u
  | f_customer_credit_card_cvv =>
      customer_credit_card_cvv u' = customer_credit_card_cvv u
  | f_checked_out => checked_out u' = checked_out u
  | f_prev_agent => prev_agent u' = prev_agent u
  | f_agents => agents u' = agents u
  end.

(** [u'] differs from [u] at most in the fields [written]. *)
Definition unchanged_outside (written : list Field) (u u' : UserData) : Prop :=
  forall f, ~ In f written -> same_field f u u'.

(** ** Expense bookkeeping along a run *)

(** The expense is unset or not negative. *)
Definition expense_nonneg (u : UserData) : Prop :=
  match expense u with
  | None => True
  | Some e => float_nonneg e = true
  end.

(** The event is not a [confirm_expense] call with an argument that fails
    [0 <= x]. *)
Definition event_expense_nonneg (ev : Event) : bool :=
  match ev with
  | tool_call (call_confirm_expense e) _ => float_nonneg e
  | _ => true
  end.

(** The expense a run leaves behind, starting from [before]: the argument
    of its last [confirm_expense] call, if it has one. *)
Definition expense_after (events : list Event) (before : option float)
    : option float :=
  fold_left
    (fun acc ev =>
       match ev with
       | tool_call (call_confirm_expense e) _ => Some e
       | _ => acc
       end)
    events before.

Definition is_generate_reply (eff : Effect) : bool :=
  match eff with
  | generate_reply _ => true
  | log_info _ => false
  end.

(** ** Sample data *)

(** Items of a short conversation: a system prompt, a user message, a tool
    call with its output and the assistant's reply. *)
Definition sample_history : list ChatItem :=
  [ message "m0" system "Eres un agente de reservas.";
    message "m1" user "Me llamo Ana";
    function_call "f1" "c1" "update_name" "{name: Ana}";
    function_call_output "o1" "update_name" "c1" "The name is updated to Ana";
    message "m2" assistant "Gracias, Ana." ].

(** A rendering to run the examples with.  The list text is Python's for
    strings without quotes or escapes; the float text is a stand-in. *)
Definition sample_rendering : Rendering :=
  {| repr_float := fun _ => "<float>";
     repr_str_list := fun l =>
       "[" +:+ String.concat ", " (map (fun s => "'" +:+ s +:+ "'") l) +:+ "]";
     summarize := fun u =>
       "name: " +:+ default "unknown" (customer_name u) +:+
       ", phone: " +:+ default "unknown" (customer_phone u) |}.

(** The floats [0.0], [-5.0] and [12.5] as binary64 values. *)
Definition float_zero : float := S754_zero false.
Definition float_minus_five : float := S754_finite true 5629499534213120 (-50).
Definition float_twelve_and_half : float := S754_finite false 7036874417766400 (-49).

(** A caller orders a pizza and goes to the checkout. *)
Definition order_run : list Event :=
  [ tool_call call_to_takeaway "item_1";
    chat_turn [message "u1" user "Una pizza, por favor"];
    tool_call (call_update_order ["Pizza"]) "";
    tool_call call_to_checkout "item_2" ].

(** The checkout is told an expense of [-5.0]. *)
Definition negative_expense_run : list Event :=
  order_run ++ [ tool_call (call_confirm_expense float_minus_five) "" ].

(** The checkout is told an expense of [0.0] and a complete card. *)
Definition zero_expense_run : list Event :=
  order_run ++
  [ tool_call (call_confirm_expense float_zero) "";
    tool_call (call_update_credit_card "4111111111111111" "12/27" "123") "" ].

(** The checkout is told an expense of [12.5] and a card whose number is
    the empty string. *)
Definition empty_card_run : list Event :=
  order_run ++
  [ tool_call (call_confirm_expense float_twelve_and_half) "";
    tool_call (call_update_credit_card "" "12/27" "123") "" ].

(** The checkout is told an expense of [12.5] and a complete card. *)
Definition paid_run : list Event :=
  order_run ++
  [ tool_call (call_confirm_expense float_twelve_and_half) "";
    tool_call (call_update_credit_card "4111111111111111" "12/27" "123") "" ].

(** The record at the end of a run of the samples, from a session started
    with the sample rendering. *)
Definition userdata_after (events : list Event) : UserData :=
  match run (H := sample_rendering) events
            (entrypoint (H := sample_rendering) "item_0").1 with
  | Some s => session_userdata s
  | None => UserData_new
  end.
(** ** The agents' hand-off graph and registry

    Who hands off to whom, read off the tools of each class and the names
    they pass to [_transfer_to_agent]. *)
Definition hands_off_to (a b : Agent) : bool :=
  match a, b with
  | Greeter, Reservation | Greeter, Takeaway => true
  | Reservation, Greeter => true
  | Takeaway, Greeter | Takeaway, Checkout => true
  | Checkout, Greeter | Checkout, Takeaway => true
  | _, _ => false
  end.

(** The registry as [entrypoint] fills it: every name gives its agent. *)
Definition entrypoint_registry (u : UserData) : Prop :=
  agents u !! "greeter" = Some Greeter
  /\ agents u !! "reservation" = Some Reservation
  /\ agents u !! "takeaway" = Some Takeaway
  /\ agents u !! "checkout" = Some Checkout.

(** The previous agent of a session fits its current agent: none on the
    greeter that started, and otherwise an agent that hands off to the
    current one. *)
Definition previous_fits (current : Agent) (u : UserData) : Prop :=
  match prev_agent u with
  | None => current = Greeter
  | Some previous => hands_off_to previous current = true
  end.

(** The payment data [confirm_checkout] asks for has been given. *)
Definition payment_given (u : UserData) : Prop :=
  is_Some (expense u)
  /\ is_Some (customer_credit_card u)
  /\ is_Some (customer_credit_card_expiry u)
  /\ is_Some (customer_credit_card_cvv u).

(** What a conversation never takes back: a field that is set stays set and
    [checked_out], once true, stays true. *)
Definition keeps_what_is_set (u u' : UserData) : Prop :=
  (is_Some (customer_name u) -> is_Some (customer_name u'))
  /\ (is_Some (customer_phone u) -> is_Some (customer_phone u'))
  /\ (is_Some (reservation_time u) -> is_Some (reservation_time u'))
  /\ (is_Some (expense u) -> is_Some (expense u'))
  /\ (is_Some (customer_credit_card u) -> is_Some (customer_credit_card u'))
  /\ (is_Some (customer_credit_card_expiry u)
      -> is_Some (customer_credit_card_expiry u'))
  /\ (is_Some (customer_credit_card_cvv u)
      -> is_Some (customer_credit_card_cvv u'))
  /\ (is_Some (prev_agent u) -> is_Some (prev_agent u'))
  /\ (checked_out u = true -> checked_out u' = true).

(** The guard of [confirm_reservation]: name, phone and reservation time
    are all true in Python's sense. *)
Definition reservation_guard (u : UserData) : bool :=
  opt_truth str_truth (customer_name u)
  && opt_truth str_truth (customer_phone u)
  && opt_truth str_truth (reservation_time u).

(** The name under which the model calls a tool. *)
Definition call_name (call : ToolCall) : string :=
  match call with
  | call_update_name _ => "update_name"
  | call_update_phone _ => "update_phone"
  | call_to_greeter => "to_greeter"
  | call_to_reservation => "to_reservation"
  | call_to_takeaway => "to_takeaway"
  | call_update_reservation_time _ => "update_reservation_time"
  | call_confirm_reservation => "confirm_reservation"
  | call_update_order _ => "update_order"
  | call_to_checkout => "to_checkout"
  | call_confirm_expense _ => "confirm_expense"
  | call_update_credit_card _ _ _ => "update_credit_card"
  | call_confirm_checkout => "confirm_checkout"
  end.

(** ** More sample data *)

(** A caller asks the greeter for takeaway: the greeter's context holds the
    request, the call of [to_takeaway] and its output when the takeaway
    agent is entered. *)
Definition takeaway_request : list ChatItem :=
  [ message "u1" user "Quiero pedir para llevar";
    function_call "f1" "c1" "to_takeaway" "{}";
    function_call_output "o1" "to_takeaway" "c1" "Transferring to takeaway." ].

Definition takeaway_handoff_run : list Event :=
  [ chat_turn takeaway_request; tool_call call_to_takeaway "item_1" ].

(** A caller books a table. *)
Definition reservation_run : list Event :=
  [ tool_call call_to_reservation "item_1";
    tool_call (call_update_reservation_time "sabado 21:00") "";
    tool_call (call_update_name "Ana") "";
    tool_call (call_update_phone "612345678") "" ].

(** The session at the end of a run of the samples. *)
Definition session_after (events : list Event) : Session :=
  match run (H := sample_rendering) events
            (entrypoint (H := sample_rendering) "item_0").1 with
  | Some s => s
  | None => (entrypoint (H := sample_rendering) "item_0").1
  end.

(** A paid-up record whose registry was never filled in. *)
Definition unregistered_userdata : UserData :=
  set_agents ∅ (userdata_after paid_run).


(** * Properties *)

(** *** Facts about the scanning loop *)

Section Collect.
Variable valid : ChatItem -> bool.
Variable n : Z.

Lemma collect_length pending acc :
  Z.of_nat (length acc) < window n ->
  Z.of_nat (length (collect valid n pending acc)) <= window n.
Proof.
  revert acc. induction pending as [|item rest IH]; intros acc Hacc; simpl.
  - lia.
  - set (acc' := if valid item then acc ++ [item] else acc).
    assert (Hlen : Z.of_nat (length acc') <= window n).
    { subst acc'. destruct (valid item); [rewrite length_app; simpl|]; lia. }
    destruct (Z.geb_spec (Z.of_nat (length acc')) n) as [Hge|Hlt].
    + exact Hlen.
    + apply IH. unfold window in *. lia.
Qed.

Lemma collect_Forall (P : ChatItem -> Prop) pending acc :
  (forall item, valid item = true -> P item) ->
  Forall P acc -> Forall P (collect valid n pending acc).
Proof.
  intros HP. revert acc.
  induction pending as [|item rest IH]; intros acc Hacc; simpl; [exact Hacc|].
  assert (Hacc' : Forall P (if valid item then acc ++ [item] else acc)).
  { destruct (valid item) eqn:Hv; [|exact Hacc].
    apply Forall_app; split; [exact Hacc|]. constructor; [auto|constructor]. }
  destruct (_ >=? _); [exact Hacc'|apply IH, Hacc'].
Qed.

(** On a list of valid items that fits the window the loop copies its
    input. *)
Lemma collect_all_valid pending acc :
  Forall (fun item => valid item = true) pending ->
  Z.of_nat (length acc + length pending) <= window n ->
  collect valid n pending acc = acc ++ pending.
Proof.
  intros Hv. revert acc.
  induction Hv as [|item rest Hi Hrest IH]; intros acc Hlen; simpl.
  - by rewrite app_nil_r.
  - rewrite Hi. simpl in Hlen. rewrite length_app. simpl.
    destruct (Z.geb_spec (Z.of_nat (length acc + 1)) n) as [Hge|Hlt].
    + assert (rest = []) as ->.
      { destruct rest; [done|]. simpl in Hlen. unfold window in Hlen. lia. }
      done.
    + rewrite IH; [by rewrite <- app_assoc|].
      rewrite length_app. simpl. lia.
Qed.

(** For a positive bound the loop computes the first [n] valid items of
    what it scans. *)
Lemma collect_firstn pending acc :
  Z.of_nat (length acc) < n ->
  collect valid n pending acc =
    acc ++ firstn (Z.to_nat n - length acc) (List.filter valid pending).
Proof.
  revert acc. induction pending as [|item rest IH]; intros acc Hacc; simpl.
  - by rewrite firstn_nil, app_nil_r.
  - destruct (valid item) eqn:Hv.
    + rewrite length_app. simpl.
      destruct (Z.to_nat n - length acc)%nat as [|k] eqn:Hk; [lia|]. simpl.
      destruct (Z.geb_spec (Z.of_nat (length acc + 1)) n) as [Hge|Hlt].
      * assert (k = 0%nat) as -> by lia. by rewrite firstn_O.
      * rewrite IH; [|rewrite length_app; simpl; lia].
        rewrite <- app_assoc. simpl. do 3 f_equal.
        rewrite length_app. simpl. lia.
    + destruct (Z.geb_spec (Z.of_nat (length acc)) n) as [Hge|Hlt]; [lia|].
      by apply IH.
Qed.
End Collect.

(** *** Facts about the front trim *)

Lemma pop_leading_head new_items :
match pop_leading new_items with
| [] => True
| item :: _ => is_function_item item = false
end.
Proof.
induction new_items as [|item rest IH]; simpl; [done|].
destruct (is_function_item item) eqn:Hf; [exact IH|exact Hf].
Qed.

Lemma pop_leading_suffix new_items :
exists dropped, new_items = dropped ++ pop_leading new_items.
Proof.
induction new_items as [|item rest [d Hd]]; simpl.
- by exists [].
- destruct (is_function_item item).
  + exists (item :: d). simpl. by f_equal.
  + by exists [].
Qed.

Lemma pop_leading_length new_items :
(length (pop_leading new_items) <= length new_items)%nat.
Proof.
destruct (pop_leading_suffix new_items) as [d Hd].
rewrite Hd at 2. rewrite length_app. lia.
Qed.

Lemma pop_leading_Forall (P : ChatItem -> Prop) new_items :
Forall P new_items -> Forall P (pop_leading new_items).
Proof.
destruct (pop_leading_suffix new_items) as [d Hd]. intros H.
rewrite Hd in H. by apply Forall_app in H as [_ H].
Qed.

Lemma pop_leading_fixed new_items :
match new_items with
| [] => True
| item :: _ => is_function_item item = false
end ->
pop_leading new_items = new_items.
Proof. destruct new_items as [|item rest]; simpl; [done|]. by intros ->. Qed.

Lemma pop_leading_no_function new_items :
Forall (fun item => is_function_item item = false) new_items ->
pop_leading new_items = new_items.
Proof.
intros H. apply pop_leading_fixed. destruct H; [done|assumption].
Qed.

(** *** Facts about the whole truncation *)

Section Truncate.
Variable items : list ChatItem.
Variable n : Z.
Variables keep_system_message keep_function_call : bool.

Let valid := _valid_item keep_system_message keep_function_call.
Let result := truncate_with items n keep_system_message keep_function_call.

Lemma truncate_with_length : Z.of_nat (length result) <= window n.
Proof.
  subst result. unfold truncate_with.
  etransitivity; [apply inj_le, pop_leading_length|].
  rewrite length_rev. apply collect_length. unfold window. simpl. lia.
Qed.

Lemma truncate_with_length_pos : 1 <= n -> Z.of_nat (length result) <= n.
Proof. intros Hn. pose proof truncate_with_length. unfold window in *. lia. Qed.

Lemma truncate_with_head :
  match result with
  | [] => True
  | item :: _ => is_function_item item = false
  end.
Proof. apply pop_leading_head. Qed.

Lemma truncate_with_valid : Forall (fun item => valid item = true) result.
Proof.
  apply pop_leading_Forall, Forall_rev, collect_Forall; [auto|constructor].
Qed.

(** For a positive bound: the last [n] items that pass the filter, in
    chronological order, without their leading function items. *)
Lemma truncate_with_spec :
  1 <= n ->
  result = pop_leading (rev (firstn (Z.to_nat n) (List.filter valid (rev items)))).
Proof.
  intros Hn. subst result. unfold truncate_with.
  rewrite collect_firstn by (simpl; lia). simpl.
  by rewrite Nat.sub_0_r.
Qed.

Lemma truncate_with_idempotent :
  truncate_with result n keep_system_message keep_function_call = result.
Proof.
  unfold truncate_with at 1.
  rewrite collect_all_valid.
  - simpl. rewrite rev_involutive.
    apply pop_leading_fixed, truncate_with_head.
  - apply Forall_rev, truncate_with_valid.
  - simpl. rewrite length_rev. apply truncate_with_length.
Qed.
End Truncate.

(** ** The truncation's retention policy, bound and idempotence *)

(** C2, as stated, fails: with the default parameters the call and its
    output, which sit inside the window and behind a user message, are
    dropped together with the system prompt. *)
Lemma default_truncation_drops_function_items :
  _truncate_chat_ctx sample_history None None None
    = [ message "m1" user "Me llamo Ana"; message "m2" assistant "Gracias, Ana." ]
  /\ In (function_call "f1" "c1" "update_name" "{name: Ana}") sample_history
  /\ ~ In (function_call "f1" "c1" "update_name" "{name: Ana}")
          (_truncate_chat_ctx sample_history None None None).
Proof.
  split; [reflexivity|]. split.
  - simpl. auto.
  - intros H. vm_compute in H. intuition discriminate.
Qed.

(** C2, amended: with its default parameters the truncation drops system
    messages and function_call / function_call_output items alike: it
    returns the last six items that are neither, in order.  Function items
    are retained only when [keep_function_call=True] is passed, as
    [on_enter] does: the result is then the last six items that are not
    system messages, without the function items that would come first. *)
Theorem truncation_retention_policy (items : list ChatItem) :
  Forall (fun item => is_function_item item = false
                      /\ is_system_message item = false)
         (_truncate_chat_ctx items None None None)
  /\ _truncate_chat_ctx items None None None
     = rev (firstn 6 (List.filter
                        (fun item => negb (is_system_message item)
                                     && negb (is_function_item item))
                        (rev items)))
  /\ _truncate_chat_ctx items None None (Some true)
     = pop_leading (rev (firstn 6 (List.filter
                                     (fun item => negb (is_system_message item))
                                     (rev items))))
  /\ Forall (fun item => is_system_message item = false)
            (_truncate_chat_ctx items None None (Some true)).
Proof.
  unfold _truncate_chat_ctx. simpl.
  assert (Hdef : Forall (fun item => is_function_item item = false
                                     /\ is_system_message item = false)
                        (truncate_with items 6 false false)).
  { eapply Forall_impl; [apply truncate_with_valid|].
    intros item. unfold _valid_item. simpl.
    destruct (is_system_message item), (is_function_item item); by intros. }
  split; [exact Hdef|]. split; [|split].
  - rewrite truncate_with_spec by lia.
    change (Z.to_nat 6) with 6%nat.
    rewrite (filter_ext (_valid_item false false)
               (fun item => negb (is_system_message item)
                            && negb (is_function_item item)))
      by (intros item; unfold _valid_item; simpl;
          destruct (is_system_message item), (is_function_item item);
          reflexivity).
    apply pop_leading_no_function, Forall_rev, Forall_take.
    apply List.Forall_forall. intros item Hin.
    apply filter_In in Hin as [_ Hin].
    by destruct (is_system_message item), (is_function_item item).
  - rewrite truncate_with_spec by lia. reflexivity.
  - eapply Forall_impl; [apply truncate_with_valid|].
    intros item. unfold _valid_item. simpl.
    by destruct (is_system_message item).
Qed.

(** C3 at the failing input: asked to keep zero items, the truncation
    returns one, because the bound is tested after the append. *)
Theorem truncation_keep_zero_returns_one :
  _truncate_chat_ctx [message "m1" user "hola"] (Some 0) None None
    = [message "m1" user "hola"]
  /\ ~ Z.of_nat (length (_truncate_chat_ctx [message "m1" user "hola"]
                                            (Some 0) None None)) <= 0.
Proof. split; [reflexivity|]. vm_compute. intros H. by apply H. Qed.

(** The parts of C3 that hold on the code: for a keep-count of at least one
    the result has at most that many items, and for every input the result
    starts with neither a function_call nor a function_call_output item (an
    empty result included, which is what is left when the front trim removes
    everything). *)
Lemma truncation_bounded_and_front_trimmed (items : list ChatItem)
    (n : option Z) (keep_system_message keep_function_call : option bool) :
  (1 <= default 6 n ->
   Z.of_nat (length (_truncate_chat_ctx items n keep_system_message
                                        keep_function_call)) <= default 6 n)
  /\ match _truncate_chat_ctx items n keep_system_message keep_function_call with
     | [] => True
     | item :: _ => is_function_item item = false
     end.
Proof.
  unfold _truncate_chat_ctx. split.
  - apply truncate_with_length_pos.
  - apply truncate_with_head.
Qed.

(** C8: truncating the result of a truncation again, with the same
    keep-count and flags, gives that result back. *)
Theorem truncation_idempotent (items : list ChatItem) (n : option Z)
    (keep_system_message keep_function_call : option bool) :
  _truncate_chat_ctx
    (_truncate_chat_ctx items n keep_system_message keep_function_call)
    n keep_system_message keep_function_call
  = _truncate_chat_ctx items n keep_system_message keep_function_call.
Proof. unfold _truncate_chat_ctx. apply truncate_with_idempotent. Qed.

(** ** Sanity checks of the model on the samples *)

Example sample_floats_are_binary64 :
  valid_binary 53 1024 float_minus_five = true
  /\ valid_binary 53 1024 float_twelve_and_half = true
  /\ float_nonneg float_minus_five = false
  /\ float_nonneg float_twelve_and_half = true
  /\ float_truth float_zero = false.
Proof. repeat split; reflexivity. Qed.

Example order_run_userdata :
  userdata_after order_run
  = mkUserData None None None ["Pizza"] None None None None false
      (Some Takeaway) (agents (userdata_after [])).
Proof. vm_compute. reflexivity. Qed.

(** ** Tools: what each hand-off does *)

(** The outcome of [_transfer_to_agent(name, context)] wrapped as a tool
    result, written out. *)
Lemma transfer_outcome (name : string) (cur : Agent) (u : UserData) :
  (r <- _transfer_to_agent name ;; ret (handoff r))%tool cur u
  = match agents u !! name with
    | Some next =>
        (set_prev_agent (Some cur) u,
         inr (Handoff next ("Transferring to " +:+ name +:+ ".")))
    | None => (u, inl (KeyError name))
    end.
Proof.
  unfold _transfer_to_agent, subscript, bind, get_userdata, get_current_agent.
  by destruct (agents u !! name).
Qed.

(** Unfolds a tool down to its guards and its registry lookup and splits on
    them. *)
Ltac record_simpl :=
  cbn [fst snd customer_name customer_phone reservation_time order expense
       customer_credit_card customer_credit_card_expiry
       customer_credit_card_cvv checked_out prev_agent agents
       set_customer_name set_customer_phone set_reservation_time set_order
       set_expense set_customer_credit_card set_customer_credit_card_expiry
       set_customer_credit_card_cvv set_checked_out set_prev_agent set_agents]
    in *.

Ltac tool_unfold :=
  unfold Checkout.confirm_checkout;
  unfold to_greeter, update_name, update_phone,
    Greeter.to_reservation, Greeter.to_takeaway,
    Reservation.update_reservation_time, Reservation.confirm_reservation,
    Takeaway.update_order, Takeaway.to_checkout,
    Checkout.confirm_expense, Checkout.update_credit_card,
    Checkout.to_takeaway,
    _transfer_to_agent, subscript, bind, ret, raise, assign,
    get_userdata, get_current_agent, handoff, agent_after;
  record_simpl.

Ltac tool_cases :=
  tool_unfold;
  repeat match goal with
    | |- context [if ?c then _ else _] => destruct c eqn:?; record_simpl
    | |- context [match agents ?u !! ?k with _ => _ end] =>
        destruct (agents u !! k) eqn:?; record_simpl
    end.

Lemma handoff_sets_prev_agent `{Rendering} (a cur : Agent) (call : ToolCall)
    (tool : Tool ToolResult) (u : UserData) (next : Agent) (msg : string) :
  find_tool a call = Some tool ->
  (tool cur u).2 = inr (Handoff next msg) ->
  prev_agent (tool cur u).1 = Some cur.
Proof.
  intros Hfind.
  destruct a, call; simpl in Hfind; try discriminate;
    injection Hfind as <-; tool_cases; intros Hres; try discriminate;
    reflexivity.
Qed.

(** C4: a tool either leaves [prev_agent] and the current agent as they
    were (it returns a string, or the registry has no agent of the name and
    the lookup raises before anything is written), or it sets [prev_agent]
    to the agent that was current and the registry's agent of the target
    name becomes current.  There is no outcome in between. *)
Theorem handoff_all_or_nothing `{Rendering} (a cur : Agent) (call : ToolCall)
    (tool : Tool ToolResult) (u : UserData) :
  find_tool a call = Some tool ->
  let outcome := tool cur u in
  (exists s, outcome.2 = inr (Str s)
             /\ prev_agent outcome.1 = prev_agent u
             /\ agent_after cur outcome = cur)
  \/ (exists name, target_name call = Some name
             /\ agents u !! name = None
             /\ outcome.2 = inl (KeyError name)
             /\ prev_agent outcome.1 = prev_agent u
             /\ agent_after cur outcome = cur)
  \/ (exists name next, target_name call = Some name
             /\ agents u !! name = Some next
             /\ outcome.2 = inr (Handoff next ("Transferring to " +:+ name +:+ "."))
             /\ prev_agent outcome.1 = Some cur
             /\ agent_after cur outcome = next).
Proof.
  intros Hfind outcome. subst outcome.
  destruct a, call; simpl in Hfind; try discriminate;
    injection Hfind as <-; tool_cases;
    first [ left; eexists; repeat split; reflexivity
          | right; left; eexists; repeat split; eauto; reflexivity
          | right; right; eexists _, _; repeat split; eauto; reflexivity ].
Qed.

Lemma handoff_all_or_nothing_witness :
  find_tool (H := sample_rendering) Takeaway call_to_checkout
    = Some Takeaway.to_checkout
  /\ let outcome := Takeaway.to_checkout Takeaway (userdata_after order_run) in
     (exists s, outcome.2 = inr (Str s)
                /\ prev_agent outcome.1 = prev_agent (userdata_after order_run)
                /\ agent_after Takeaway outcome = Takeaway)
     \/ (exists name, target_name call_to_checkout = Some name
                /\ agents (userdata_after order_run) !! name = None
                /\ outcome.2 = inl (KeyError name)
                /\ prev_agent outcome.1 = prev_agent (userdata_after order_run)
                /\ agent_after Takeaway outcome = Takeaway)
     \/ (exists name next, target_name call_to_checkout = Some name
                /\ agents (userdata_after order_run) !! name = Some next
                /\ outcome.2
                   = inr (Handoff next ("Transferring to " +:+ name +:+ "."))
                /\ prev_agent outcome.1 = Some Takeaway
                /\ agent_after Takeaway outcome = next).
Proof.
  split; [reflexivity|].
  apply (handoff_all_or_nothing (H := sample_rendering)
           Takeaway Takeaway call_to_checkout Takeaway.to_checkout
           (userdata_after order_run)).
  reflexivity.
Defined.

(** C10: a hand-off tool that succeeds has looked its target up in the
    registry under the tool's fixed name and returns that agent with the
    message "Transferring to <name>."; for [to_greeter], and for
    [confirm_checkout], which calls it, the name is "greeter". *)
Theorem handoff_resolves_through_registry `{Rendering} (a cur : Agent)
    (call : ToolCall) (tool : Tool ToolResult) (u u' : UserData)
    (next : Agent) (msg : string) :
  find_tool a call = Some tool ->
  tool cur u = (u', inr (Handoff next msg)) ->
  (exists name, target_name call = Some name
                /\ agents u !! name = Some next
                /\ msg = "Transferring to " +:+ name +:+ ".")
  /\ (call = call_to_greeter \/ call = call_confirm_checkout ->
      agents u !! "greeter" = Some next /\ msg = "Transferring to greeter.")
  /\ (forall offering, offering <> Greeter ->
      find_tool offering call_to_greeter = Some to_greeter).
Proof.
  intros Hfind.
  destruct a, call; simpl in Hfind; try discriminate;
    injection Hfind as <-; tool_cases; intros Hrun; try discriminate;
    injection Hrun as <- <- <-;
    (split; [eexists; repeat split; eauto|split];
     [intros [?|?]; try discriminate; auto
     |intros [] ?; done]).
Qed.

Lemma handoff_resolves_through_registry_witness :
  find_tool (H := sample_rendering) Checkout call_confirm_checkout
    = Some Checkout.confirm_checkout
  /\ Checkout.confirm_checkout Checkout (userdata_after paid_run)
     = (set_prev_agent (Some Checkout)
          (set_checked_out true (userdata_after paid_run)),
        inr (Handoff Greeter "Transferring to greeter."))
  /\ (exists name, target_name call_confirm_checkout = Some name
                   /\ agents (userdata_after paid_run) !! name = Some Greeter
                   /\ "Transferring to greeter."
                      = "Transferring to " +:+ name +:+ ".")
  /\ (call_confirm_checkout = call_to_greeter
      \/ call_confirm_checkout = call_confirm_checkout ->
      agents (userdata_after paid_run) !! "greeter" = Some Greeter
      /\ "Transferring to greeter." = "Transferring to greeter.")
  /\ (forall offering, offering <> Greeter ->
      find_tool (H := sample_rendering) offering call_to_greeter
      = Some to_greeter).
Proof.
  split; [reflexivity|]. split; [vm_compute; reflexivity|].
  apply (handoff_resolves_through_registry (H := sample_rendering)
           Checkout Checkout call_confirm_checkout Checkout.confirm_checkout
           (userdata_after paid_run)
           (set_prev_agent (Some Checkout)
              (set_checked_out true (userdata_after paid_run)))
           Greeter "Transferring to greeter.").
  - reflexivity.
  - vm_compute. reflexivity.
Defined.

(** ** The registry is fixed

    No tool and no session step writes [userdata.agents]: every session a
    conversation reaches has the registry that [entrypoint] filled in. *)

Lemma tool_agents `{Rendering} (a cur : Agent) (call : ToolCall)
    (tool : Tool ToolResult) (u : UserData) :
  find_tool a call = Some tool -> agents (tool cur u).1 = agents u.
Proof.
  intros Hfind.
  destruct a, call; simpl in Hfind; try discriminate;
    injection Hfind as <-; tool_cases; reflexivity.
Qed.

Lemma handle_agents `{Rendering} (ev : Event) (s s' : Session)
    (effects : list Effect) :
  handle ev s = Some (s', effects) ->
  agents (session_userdata s') = agents (session_userdata s).
Proof.
  destruct ev as [call new_id|items]; simpl.
  - destruct (find_tool (session_current_agent s) call) as [tool|] eqn:Hfind;
      [|discriminate].
    pose proof (tool_agents _ (session_current_agent s) _ _
                  (session_userdata s) Hfind) as Hreg.
    destruct (tool (session_current_agent s) (session_userdata s)) as [u' r].
    simpl in *. intros Hs'. rewrite <- Hreg.
    destruct r as [e|[msg|next msg]]; by injection Hs' as <- _.
  - by intros [= <- _].
Qed.

Lemma run_agents `{Rendering} (events : list Event) (s s' : Session) :
  run events s = Some s' ->
  agents (session_userdata s') = agents (session_userdata s).
Proof.
  revert s. induction events as [|ev rest IH]; intros s; simpl.
  - by intros [= ->].
  - destruct (handle ev s) as [[s1 effects]|] eqn:Hh; [|discriminate].
    intros Hrun. rewrite (IH _ Hrun). exact (handle_agents _ _ _ _ Hh).
Qed.

Lemma reachable_registry `{Rendering} (s : Session) :
  reachable s ->
  agents (session_userdata s) !! "greeter" = Some Greeter
  /\ agents (session_userdata s) !! "reservation" = Some Reservation
  /\ agents (session_userdata s) !! "takeaway" = Some Takeaway
  /\ agents (session_userdata s) !! "checkout" = Some Checkout.
Proof.
  intros (new_id & events & Hrun). rewrite (run_agents _ _ _ Hrun).
  repeat split; vm_compute; reflexivity.
Qed.

(** ** Guards of the hand-off tools *)

(** C6: with an empty order [to_checkout] returns the string "No takeaway
    order found. Please make an order first.", writes nothing and the
    takeaway agent stays current; with an order that is not empty it hands
    off to the checkout agent. *)
Theorem to_checkout_guard (u : UserData) :
  agents u !! "checkout" = Some Checkout ->
  let outcome := Takeaway.to_checkout Takeaway u in
  (order u = [] ->
     outcome = (u, inr (Str "No takeaway order found. Please make an order first."))
     /\ prev_agent outcome.1 = prev_agent u
     /\ agent_after Takeaway outcome = Takeaway)
  /\ (order u <> [] ->
     outcome.2 = inr (Handoff Checkout "Transferring to checkout.")
     /\ prev_agent outcome.1 = Some Takeaway
     /\ agent_after Takeaway outcome = Checkout).
Proof.
  intros Hreg outcome. subst outcome. tool_unfold.
  split; intros Horder.
  - by rewrite Horder.
  - destruct (order u) as [|item rest]; [done|].
    cbn [negb list_truth]. by rewrite Hreg.
Qed.

Lemma to_checkout_guard_witness :
  agents (userdata_after order_run) !! "checkout" = Some Checkout
  /\ order (userdata_after order_run) <> []
  /\ (Takeaway.to_checkout Takeaway (userdata_after order_run)).2
     = inr (Handoff Checkout "Transferring to checkout.")
  /\ prev_agent (Takeaway.to_checkout Takeaway (userdata_after order_run)).1
     = Some Takeaway
  /\ agent_after Takeaway
       (Takeaway.to_checkout Takeaway (userdata_after order_run)) = Checkout.
Proof.
  assert (Hreg : agents (userdata_after order_run) !! "checkout" = Some Checkout)
    by (vm_compute; reflexivity).
  assert (Horder : order (userdata_after order_run) <> [])
    by (vm_compute; discriminate).
  split; [exact Hreg|]. split; [exact Horder|].
  exact (proj2 (to_checkout_guard (userdata_after order_run) Hreg) Horder).
Defined.

(** C1, as stated, fails: the expense and the three card fields are set
    and [confirm_checkout] still answers with a string, writes nothing and
    leaves the checkout agent current, both when the card number that was
    given is the empty string and when the expense that was given is
    [0.0]. *)
Lemma confirm_checkout_refuses_set_fields :
  (let u := userdata_after empty_card_run in
   expense u = Some float_twelve_and_half
   /\ customer_credit_card u = Some ""
   /\ is_Some (customer_credit_card_expiry u)
   /\ is_Some (customer_credit_card_cvv u)
   /\ Checkout.confirm_checkout Checkout u
      = (u, inr (Str "Please provide the credit card information first."))
   /\ agent_after Checkout (Checkout.confirm_checkout Checkout u) = Checkout
   /\ checked_out (Checkout.confirm_checkout Checkout u).1 = false)
  /\ (let u := userdata_after zero_expense_run in
      expense u = Some float_zero
      /\ is_Some (customer_credit_card u)
      /\ is_Some (customer_credit_card_expiry u)
      /\ is_Some (customer_credit_card_cvv u)
      /\ Checkout.confirm_checkout Checkout u
         = (u, inr (Str "Please confirm the expense first."))
      /\ agent_after Checkout (Checkout.confirm_checkout Checkout u) = Checkout
      /\ checked_out (Checkout.confirm_checkout Checkout u).1 = false).
Proof.
  split; intros u.
  - split; [vm_compute; reflexivity|].
    split; [vm_compute; reflexivity|].
    do 2 (split; [vm_compute; eauto|]).
    split; [vm_compute; reflexivity|].
    split; vm_compute; reflexivity.
  - split; [vm_compute; reflexivity|].
    do 3 (split; [vm_compute; eauto|]).
    split; [vm_compute; reflexivity|].
    split; vm_compute; reflexivity.
Qed.

(** C1, amended: [confirm_checkout] hands off to the greeter if and only if
    [expense] is set to a value other than zero and the three card fields
    are set to strings that are not empty; in exactly that case
    [checked_out] becomes true, and otherwise it returns a string, leaves
    the record (so [checked_out] too) as it was, and the checkout agent
    stays current. *)
Theorem confirm_checkout_guard (u : UserData) :
  agents u !! "greeter" = Some Greeter ->
  let outcome := Checkout.confirm_checkout Checkout u in
  (agent_after Checkout outcome = Greeter <-> checkout_guard u = true)
  /\ (checkout_guard u = true ->
      outcome.2 = inr (Handoff Greeter "Transferring to greeter.")
      /\ checked_out outcome.1 = true)
  /\ (checkout_guard u = false ->
      (exists s, outcome.2 = inr (Str s))
      /\ outcome.1 = u
      /\ agent_after Checkout outcome = Checkout).
Proof.
  intros Hreg outcome. subst outcome. unfold checkout_guard. tool_unfold.
  destruct (opt_truth float_truth (expense u)),
    (opt_truth str_truth (customer_credit_card u)),
    (opt_truth str_truth (customer_credit_card_expiry u)),
    (opt_truth str_truth (customer_credit_card_cvv u));
    cbn [negb orb andb]; rewrite ?Hreg; record_simpl;
    (split; [split; intros; congruence|]);
    (split; [intros; try discriminate; by split|]);
    intros; try discriminate; eauto.
Qed.

Lemma confirm_checkout_guard_witness :
  agents (userdata_after paid_run) !! "greeter" = Some Greeter
  /\ checkout_guard (userdata_after paid_run) = true
  /\ (Checkout.confirm_checkout Checkout (userdata_after paid_run)).2
     = inr (Handoff Greeter "Transferring to greeter.")
  /\ checked_out (Checkout.confirm_checkout Checkout (userdata_after paid_run)).1
     = true.
Proof.
  assert (Hreg : agents (userdata_after paid_run) !! "greeter" = Some Greeter)
    by (vm_compute; reflexivity).
  assert (Hguard : checkout_guard (userdata_after paid_run) = true)
    by (vm_compute; reflexivity).
  split; [exact Hreg|]. split; [exact Hguard|].
  exact (proj1 (proj2 (confirm_checkout_guard (userdata_after paid_run) Hreg))
           Hguard).
Defined.

(** ** Field updates *)

Ltac frame_cases :=
  let f := fresh "f" in
  let Hf := fresh "Hf" in
  intros f Hf; destruct f; try reflexivity;
  exfalso; apply Hf; simpl; tauto.

(** C9: each field-update tool writes exactly its own field or fields, in
    full, leaves every other field of the record as it was and returns a
    plain string: [update_order] puts its argument in place of the whole
    order, [update_credit_card] writes the three card fields, and the same
    holds for [update_name], [update_phone], [update_reservation_time] and
    [confirm_expense]. *)
Theorem field_updates_overwrite `{Rendering} (cur : Agent) (u : UserData) :
  (forall items,
     let outcome := Takeaway.update_order items cur u in
     order outcome.1 = items
     /\ unchanged_outside [f_order] u outcome.1
     /\ exists s, outcome.2 = inr (Str s))
  /\ (forall number expiry cvv,
     let outcome := Checkout.update_credit_card number expiry cvv cur u in
     customer_credit_card outcome.1 = Some number
     /\ customer_credit_card_expiry outcome.1 = Some expiry
     /\ customer_credit_card_cvv outcome.1 = Some cvv
     /\ unchanged_outside
          [f_customer_credit_card; f_customer_credit_card_expiry;
           f_customer_credit_card_cvv] u outcome.1
     /\ exists s, outcome.2 = inr (Str s))
  /\ (forall name,
     let outcome := update_name name cur u in
     customer_name outcome.1 = Some name
     /\ unchanged_outside [f_customer_name] u outcome.1
     /\ exists s, outcome.2 = inr (Str s))
  /\ (forall phone,
     let outcome := update_phone phone cur u in
     customer_phone outcome.1 = Some phone
     /\ unchanged_outside [f_customer_phone] u outcome.1
     /\ exists s, outcome.2 = inr (Str s))
  /\ (forall time,
     let outcome := Reservation.update_reservation_time time cur u in
     reservation_time outcome.1 = Some time
     /\ unchanged_outside [f_reservation_time] u outcome.1
     /\ exists s, outcome.2 = inr (Str s))
  /\ (forall e,
     let outcome := Checkout.confirm_expense e cur u in
     expense outcome.1 = Some e
     /\ unchanged_outside [f_expense] u outcome.1
     /\ exists s, outcome.2 = inr (Str s)).
Proof.
  repeat split; tool_unfold; try reflexivity; try frame_cases; eauto.
Qed.

(** ** The expense along a conversation *)

Lemma tool_expense `{Rendering} (a cur : Agent) (call : ToolCall)
    (tool : Tool ToolResult) (u : UserData) :
  find_tool a call = Some tool ->
  expense (tool cur u).1
  = match call with
    | call_confirm_expense e => Some e
    | _ => expense u
    end.
Proof.
  intros Hfind.
  destruct a, call; simpl in Hfind; try discriminate;
    injection Hfind as <-; tool_cases; reflexivity.
Qed.

Lemma handle_expense `{Rendering} (ev : Event) (s s' : Session)
    (effects : list Effect) :
  handle ev s = Some (s', effects) ->
  expense (session_userdata s') = expense_after [ev] (expense (session_userdata s)).
Proof.
  destruct ev as [call new_id|items]; simpl.
  - destruct (find_tool (session_current_agent s) call) as [tool|] eqn:Hfind;
      [|discriminate].
    pose proof (tool_expense _ (session_current_agent s) _ _
                  (session_userdata s) Hfind) as Hexp.
    destruct (tool (session_current_agent s) (session_userdata s)) as [u' r].
    simpl in *. intros Hs'.
    assert (session_userdata s' = u') as ->.
    { destruct r as [e|[msg|next msg]]; by injection Hs' as <- _. }
    rewrite Hexp. by destruct call.
  - by intros [= <- _].
Qed.

Lemma run_expense `{Rendering} (events : list Event) (s s' : Session) :
  run events s = Some s' ->
  expense (session_userdata s')
  = expense_after events (expense (session_userdata s)).
Proof.
  revert s. induction events as [|ev rest IH]; intros s; simpl.
  - by intros [= ->].
  - destruct (handle ev s) as [[s1 effects]|] eqn:Hh; [|discriminate].
    intros Hrun. rewrite (IH _ Hrun).
    by rewrite (handle_expense _ _ _ _ Hh).
Qed.

Lemma expense_after_nonneg (events : list Event) (before : option float) :
  forallb event_expense_nonneg events = true ->
  from_option (fun e => float_nonneg e = true) True before ->
  from_option (fun e => float_nonneg e = true) True (expense_after events before).
Proof.
  revert before. induction events as [|ev rest IH]; intros before; simpl.
  - auto.
  - intros [Hev Hrest]%andb_prop Hbefore. apply IH; [exact Hrest|].
    destruct ev as [[] ?|]; simpl in *; auto.
Qed.

(** C7, as stated, fails: in the conversation of [negative_expense_run] the
    checkout agent is told an expense of [-5.0], and the record then holds
    it. *)
Lemma negative_expense_is_stored :
  exists s,
    run (H := sample_rendering) negative_expense_run
        (entrypoint (H := sample_rendering) "item_0").1 = Some s
    /\ reachable (H := sample_rendering) s
    /\ expense (session_userdata s) = Some float_minus_five
    /\ float_nonneg float_minus_five = false
    /\ ~ expense_nonneg (session_userdata s).
Proof.
  eexists. split; [vm_compute; reflexivity|].
  split; [exists "item_0", negative_expense_run; vm_compute; reflexivity|].
  split; [reflexivity|]. split; [reflexivity|].
  vm_compute. discriminate.
Qed.

(** C7, amended: in every state a conversation reaches, the expense is
    either unset or the value that the most recent [confirm_expense] call
    passed, stored as it came, without a check of its sign; it is at least
    zero whenever every [confirm_expense] argument of the conversation
    was. *)
Theorem expense_is_last_confirmed `{Rendering} (new_id : string)
    (events : list Event) (s : Session) :
  run events (entrypoint new_id).1 = Some s ->
  expense (session_userdata s) = expense_after events None
  /\ (forallb event_expense_nonneg events = true ->
      expense_nonneg (session_userdata s)).
Proof.
  intros Hrun. pose proof (run_expense _ _ _ Hrun) as Hexp.
  simpl in Hexp. split; [exact Hexp|].
  intros Hall. unfold expense_nonneg. rewrite Hexp.
  pose proof (expense_after_nonneg events None Hall I) as Hnn.
  by destruct (expense_after events None).
Qed.

Lemma expense_is_last_confirmed_witness :
  forallb event_expense_nonneg paid_run = true
  /\ match run (H := sample_rendering) paid_run
               (entrypoint (H := sample_rendering) "item_0").1 with
     | Some s =>
         expense (session_userdata s) = Some float_twelve_and_half
         /\ expense_nonneg (session_userdata s)
     | None => False
     end.
Proof.
  assert (Hall : forallb event_expense_nonneg paid_run = true) by reflexivity.
  split; [exact Hall|].
  destruct (run (H := sample_rendering) paid_run
              (entrypoint (H := sample_rendering) "item_0").1)
    as [s|] eqn:Hrun.
  - destruct (expense_is_last_confirmed (H := sample_rendering)
                "item_0" paid_run s Hrun) as [Hexp Hnn].
    split; [exact Hexp|exact (Hnn Hall)].
  - vm_compute in Hrun. discriminate.
Defined.

(** ** Entering an agent *)

Lemma id_occurs_spec (own : list ChatItem) (item : ChatItem) :
  bool_decide (item_id item ∉ (list_to_set (map item_id own) : gset string))
  = negb (id_occurs own item).
Proof.
  unfold id_occurs.
  destruct (existsb (String.eqb (item_id item)) (map item_id own)) eqn:Hocc.
  - apply bool_decide_eq_false. intros Hnot. apply Hnot.
    apply elem_of_list_to_set, list_elem_of_In.
    apply existsb_exists in Hocc as (i & Hin & ->%String.eqb_eq). exact Hin.
  - apply bool_decide_eq_true. intros Hin%elem_of_list_to_set%list_elem_of_In.
    enough (existsb (String.eqb (item_id item)) (map item_id own) = true)
      by congruence.
    apply existsb_exists. exists (item_id item). split; [exact Hin|].
    apply String.eqb_refl.
Qed.

Lemma append_nil_r (s : string) : s +:+ "" = s.
Proof.
  induction s as [|c rest IH]; [reflexivity|exact (f_equal (String c) IH)].
Qed.

Lemma append_assoc (a b c : string) : (a +:+ b) +:+ c = a +:+ b +:+ c.
Proof.
  induction a as [|x rest IH]; [reflexivity|exact (f_equal (String x) IH)].
Qed.

Lemma contains_suffix (before needle : string) :
  contains (before +:+ needle) needle.
Proof. exists before, "". by rewrite append_nil_r. Qed.

Lemma entered_chat_ctx_spec `{Rendering} (self : Agent) (new_id : string)
    (s : Session) :
  entered_chat_ctx self new_id s
  = spec_entered_chat_ctx (agent_chat_ctx s self)
      (agent_chat_ctx s <$> prev_agent (session_userdata s))
      (message new_id system (entered_content self (session_userdata s))).
Proof.
  unfold entered_chat_ctx, spec_entered_chat_ctx, add_message, entered_content.
  destruct (prev_agent (session_userdata s)) as [prev|];
    cbn [fmap option_fmap option_map from_option].
  - rewrite <- app_assoc. do 2 f_equal. unfold spec_carried_over.
    apply filter_ext. intros item. apply id_occurs_spec.
  - reflexivity.
Qed.

Lemma entered_content_summary `{Rendering} (self : Agent) (u : UserData) :
  contains (entered_content self u) (summarize u).
Proof.
  unfold entered_content. rewrite <- !append_assoc. apply contains_suffix.
Qed.

Lemma copy_with_tools_spec (a : Agent) (items : list ChatItem) :
  copy_with_tools (tool_names a) items = spec_live_chat_ctx a items.
Proof.
  unfold copy_with_tools, spec_live_chat_ctx. apply filter_ext.
  intros item. unfold tool_is_offered.
  destruct (item_tool_name item) as [name|]; [|reflexivity].
  destruct (existsb (String.eqb name) (tool_names a)) eqn:Hocc.
  - apply bool_decide_eq_true, elem_of_list_to_set, list_elem_of_In.
    apply existsb_exists in Hocc as (n & Hin & ->%String.eqb_eq). exact Hin.
  - apply bool_decide_eq_false.
    intros Hin%elem_of_list_to_set%list_elem_of_In.
    enough (existsb (String.eqb name) (tool_names a) = true) by congruence.
    apply existsb_exists. exists name. split; [exact Hin|apply String.eqb_refl].
Qed.

Lemma update_chat_ctx_self (self : Agent) (chat_ctx : list ChatItem)
    (s : Session) :
  agent_chat_ctx (update_chat_ctx self chat_ctx s) self
  = spec_live_chat_ctx self chat_ctx.
Proof.
  unfold update_chat_ctx, replace_chat_ctx. cbn [agent_chat_ctx].
  rewrite decide_True by reflexivity. apply copy_with_tools_spec.
Qed.

Lemma on_enter_live_ctx `{Rendering} (self : Agent) (new_id : string)
    (s : Session) :
  agent_chat_ctx (on_enter self new_id s).1 self
  = spec_live_chat_ctx self (entered_chat_ctx self new_id s).
Proof. apply update_chat_ctx_self. Qed.

Lemma filter_all (p : ChatItem -> bool) (l : list ChatItem) :
  Forall (fun item => p item = true) l -> List.filter p l = l.
Proof.
  induction 1 as [|item rest Hitem _ IH]; simpl; [reflexivity|].
  by rewrite Hitem, IH.
Qed.

(** C5, as stated, fails: the takeaway agent is entered from the greeter,
    whose context holds the caller's request, the call of [to_takeaway] and
    its output.  The context the claim describes has the request, the call,
    the output and the summary message; the takeaway agent's context after
    [on_enter] has the request and the summary message only, because the
    takeaway agent has no tool [to_takeaway]. *)
Lemma on_enter_drops_unoffered_function_items :
  let s := session_after [chat_turn takeaway_request] in
  let entering :=
    mkSession (set_prev_agent (Some Greeter) (session_userdata s)) Takeaway
              (agent_chat_ctx s) in
  let summary :=
    message "item_1" system
      ("Eres el agente Takeaway. Los datos actuales del usuario son "
       +:+ summarize (Rendering := sample_rendering)
             (session_userdata entering)) in
  let live :=
    agent_chat_ctx
      (on_enter (H := sample_rendering) Takeaway "item_1" entering).1 Takeaway in
  agent_chat_ctx (session_after takeaway_handoff_run) Takeaway = live
  /\ live = [message "u1" user "Quiero pedir para llevar"; summary]
  /\ spec_entered_chat_ctx (agent_chat_ctx entering Takeaway)
       (agent_chat_ctx entering <$> prev_agent (session_userdata entering))
       summary
     = takeaway_request ++ [summary]
  /\ live <> spec_entered_chat_ctx (agent_chat_ctx entering Takeaway)
               (agent_chat_ctx entering
                  <$> prev_agent (session_userdata entering))
               summary.
Proof.
  intros s entering summary live.
  split; [vm_compute; reflexivity|].
  split; [vm_compute; reflexivity|].
  split; [vm_compute; reflexivity|].
  intros Heq. vm_compute in Heq. discriminate Heq.
Qed.

(** C5, amended: [on_enter] builds a copy of the agent's own context,
    followed, when a previous agent is set, by that agent's truncated
    context without the items whose id the copy already has, followed by
    one system message whose text contains the summary of that moment, and
    passes it to [update_chat_ctx]; the agent's resulting context is that
    list without the function_call and function_call_output items of tools
    the agent does not have (all of it when there is no such item).  One
    reply is then asked for with the tool choice "none".  Nothing else
    changes: the shared record and the other agents' contexts stay as they
    were. *)
Theorem on_enter_context `{Rendering} (self : Agent) (new_id : string)
    (s : Session) :
  let u := session_userdata s in
  let entered := on_enter self new_id s in
  exists content,
    let built :=
      spec_entered_chat_ctx (agent_chat_ctx s self)
        (agent_chat_ctx s <$> prev_agent u)
        (message new_id system content) in
    contains content (summarize u)
    /\ entered_chat_ctx self new_id s = built
    /\ agent_chat_ctx entered.1 self = spec_live_chat_ctx self built
    /\ (Forall (fun item => tool_is_offered self item = true) built ->
        agent_chat_ctx entered.1 self = built)
    /\ List.filter is_generate_reply entered.2 = [generate_reply "none"]
    /\ session_userdata entered.1 = u
    /\ session_current_agent entered.1 = session_current_agent s
    /\ forall other, other <> self ->
         agent_chat_ctx entered.1 other = agent_chat_ctx s other.
Proof.
  intros u entered. subst entered u.
  exists (entered_content self (session_userdata s)). intros built.
  assert (Hbuilt : entered_chat_ctx self new_id s = built)
    by apply entered_chat_ctx_spec.
  assert (Hlive : agent_chat_ctx (on_enter self new_id s).1 self
                  = spec_live_chat_ctx self built)
    by (rewrite on_enter_live_ctx; by rewrite Hbuilt).
  split; [apply entered_content_summary|]. split; [exact Hbuilt|].
  split; [exact Hlive|].
  split; [intros Hall; rewrite Hlive; by apply filter_all|].
  split; [reflexivity|]. split; [reflexivity|]. split; [reflexivity|].
  intros other Hother. unfold on_enter, update_chat_ctx, replace_chat_ctx.
  cbn [fst agent_chat_ctx]. by rewrite decide_False.
Qed.

(** On a hand-off the session enters the target: the target is current, the
    agent that was current is the previous agent, the target's context is
    built from its own and from that agent's and then stripped of the
    function items of tools the target does not have, and one reply is
    asked for with the tool choice "none". *)
Lemma handoff_enters_target `{Rendering} (call : ToolCall) (new_id : string)
    (tool : Tool ToolResult) (s s' : Session) (effects : list Effect)
    (next : Agent) (msg : string) :
  find_tool (session_current_agent s) call = Some tool ->
  (tool (session_current_agent s) (session_userdata s)).2
    = inr (Handoff next msg) ->
  handle (tool_call call new_id) s = Some (s', effects) ->
  session_current_agent s' = next
  /\ prev_agent (session_userdata s') = Some (session_current_agent s)
  /\ (exists content,
        contains content (summarize (session_userdata s'))
        /\ agent_chat_ctx s' next
           = spec_live_chat_ctx next
               (spec_entered_chat_ctx (agent_chat_ctx s next)
                  (Some (agent_chat_ctx s (session_current_agent s)))
                  (message new_id system content)))
  /\ List.filter is_generate_reply effects = [generate_reply "none"].
Proof.
  intros Hfind Hres. cbn [handle]. rewrite Hfind.
  pose proof (handoff_sets_prev_agent _ _ _ _ _ _ _ Hfind Hres) as Hprev.
  unfold agent_after. rewrite Hres. cbv beta iota zeta. intros [= <- <-].
  rewrite update_chat_ctx_self, entered_chat_ctx_spec.
  unfold update_chat_ctx, replace_chat_ctx.
  cbn [session_userdata session_current_agent agent_chat_ctx].
  split; [reflexivity|]. split; [exact Hprev|]. split; [|reflexivity].
  eexists. split; [apply entered_content_summary|]. by rewrite Hprev.
Qed.

(** The names in [tool_names] are the names of the calls [find_tool]
    resolves for the agent. *)
Lemma find_tool_names `{Rendering} (a : Agent) (call : ToolCall) :
  is_Some (find_tool a call) <-> In (call_name call) (tool_names a).
Proof.
  destruct a, call; simpl; split;
    first [ intros _; by eauto 10
          | intros [tool Htool]; discriminate Htool
          | intros Hin; exfalso; intuition discriminate ].
Qed.

(** ** Scenarios *)

(** A fresh session is on the greeter; [to_reservation] makes the
    reservation agent current with the greeter as previous agent, and the
    reservation agent's context ends with the system message that carries
    the summary. *)
Example scenario_to_reservation :
  match run (H := sample_rendering) [tool_call call_to_reservation "item_1"]
            (entrypoint (H := sample_rendering) "item_0").1 with
  | Some s =>
      session_current_agent s = Reservation
      /\ prev_agent (session_userdata s) = Some Greeter
      /\ last (agent_chat_ctx s Reservation)
         = Some (message "item_1" system
                   ("Eres el agente Reservation. Los datos actuales del usuario son "
                    +:+ summarize (Rendering := sample_rendering)
                          (session_userdata s)))
  | None => False
  end.
Proof. vm_compute. repeat split; reflexivity. Qed.

(** The takeaway agent with an empty order: [to_checkout] answers with its
    string and the takeaway agent stays current. *)
Example scenario_empty_order :
  match run (H := sample_rendering)
            [tool_call call_to_takeaway "item_1"; tool_call call_to_checkout "item_2"]
            (entrypoint (H := sample_rendering) "item_0").1 with
  | Some s =>
      session_current_agent s = Takeaway
      /\ prev_agent (session_userdata s) = Some Greeter
  | None => False
  end.
Proof. vm_compute. split; reflexivity. Qed.

(** A paid order: [confirm_checkout] marks the record checked out and the
    greeter is current again, entered from the checkout agent. *)
Example scenario_paid :
  match run (H := sample_rendering)
            (paid_run ++ [tool_call call_confirm_checkout "item_3"])
            (entrypoint (H := sample_rendering) "item_0").1 with
  | Some s =>
      session_current_agent s = Greeter
      /\ checked_out (session_userdata s) = true
      /\ prev_agent (session_userdata s) = Some Checkout
      /\ item_id <$> agent_chat_ctx s Greeter = ["item_0"; "u1"; "item_3"]
  | None => False
  end.
Proof. vm_compute. repeat split; reflexivity. Qed.

(** A tool the current agent does not offer is not run. *)
Example greeter_has_no_checkout_tool :
  run (H := sample_rendering) [tool_call call_confirm_checkout "item_1"]
      (entrypoint (H := sample_rendering) "item_0").1 = None.
Proof. reflexivity. Qed.

(** * Further properties of the code *)

(** ** More on the truncation *)

Lemma collect_prefix (valid : ChatItem -> bool) (n : Z)
    (pending acc : list ChatItem) :
  exists taken,
    collect valid n pending acc = acc ++ taken
    /\ taken `prefix_of` List.filter valid pending.
Proof.
  revert acc. induction pending as [|item rest IH]; intros acc; simpl.
  - exists []. by rewrite app_nil_r.
  - destruct (valid item) eqn:Hv.
    + destruct (_ >=? _).
      * exists [item]. split; [done|]. by apply prefix_cons, prefix_nil.
      * destruct (IH (acc ++ [item])) as (taken & -> & Hpre).
        exists (item :: taken). split; [by rewrite <- app_assoc|].
        by apply prefix_cons.
    + destruct (_ >=? _).
      * exists []. split; [by rewrite app_nil_r|apply prefix_nil].
      * apply IH.
Qed.

Lemma truncate_with_suffix (items : list ChatItem) (n : Z)
    (keep_system_message keep_function_call : bool) :
  truncate_with items n keep_system_message keep_function_call
  `suffix_of` List.filter (_valid_item keep_system_message keep_function_call)
                          items.
Proof.
  unfold truncate_with.
  destruct (collect_prefix (_valid_item keep_system_message keep_function_call)
              n (rev items) []) as (taken & -> & older & Holder).
  simpl. destruct (pop_leading_suffix (rev taken)) as (dropped & Hdropped).
  exists (rev older ++ dropped).
  rewrite <- app_assoc, <- Hdropped, <- rev_app_distr, <- Holder.
  by rewrite filter_rev, rev_involutive.
Qed.

Lemma filter_sublist (p : ChatItem -> bool) (l : list ChatItem) :
  List.filter p l `sublist_of` l.
Proof.
  induction l as [|x l IH]; simpl; [constructor|].
  destruct (p x); by constructor.
Qed.

(** X1: whatever the keep-count and the flags, the truncation returns a
    suffix of the items that pass the filter: the most recent of them, in
    their order, with none left out in between and none made up. *)
Theorem truncation_is_suffix_of_kept (items : list ChatItem) (n : option Z)
    (keep_system_message keep_function_call : option bool) :
  _truncate_chat_ctx items n keep_system_message keep_function_call
  `suffix_of` List.filter (_valid_item (default false keep_system_message)
                                       (default false keep_function_call))
                          items
  /\ _truncate_chat_ctx items n keep_system_message keep_function_call
     `sublist_of` items.
Proof.
  unfold _truncate_chat_ctx.
  pose proof (truncate_with_suffix items (default 6 n)
                (default false keep_system_message)
                (default false keep_function_call)) as Hsuf.
  split; [exact Hsuf|].
  destruct Hsuf as (older & Holder).
  transitivity (List.filter (_valid_item (default false keep_system_message)
                                         (default false keep_function_call))
                            items); [|apply filter_sublist].
  rewrite Holder. by apply sublist_inserts_l.
Qed.

(** X2: for every keep-count, also zero and below, the result has at most
    [max N 1] items. *)
Theorem truncation_length_at_most_window (items : list ChatItem) (n : option Z)
    (keep_system_message keep_function_call : option bool) :
  Z.of_nat (length (_truncate_chat_ctx items n keep_system_message
                                       keep_function_call))
  <= Z.max (default 6 n) 1.
Proof. unfold _truncate_chat_ctx. apply truncate_with_length. Qed.

(** X3: with a keep-count of at least one and function items not kept, the
    truncation returns exactly the last [N] items that pass the filter (all
    of them when there are fewer), so its length is the smaller of [N] and
    their number. *)
Theorem truncation_last_n_kept (items : list ChatItem) (n : Z)
    (keep_system_message : bool) :
  1 <= n ->
  let kept := List.filter (_valid_item keep_system_message false) items in
  _truncate_chat_ctx items (Some n) (Some keep_system_message) (Some false)
  = skipn (length kept - Z.to_nat n) kept
  /\ length (_truncate_chat_ctx items (Some n) (Some keep_system_message)
                                (Some false))
     = Nat.min (Z.to_nat n) (length kept).
Proof.
  intros Hn kept.
  change (_truncate_chat_ctx items (Some n) (Some keep_system_message)
                             (Some false))
    with (truncate_with items n keep_system_message false).
  assert (Heq : truncate_with items n keep_system_message false
                = skipn (length kept - Z.to_nat n) kept).
  { rewrite truncate_with_spec by exact Hn.
    rewrite filter_rev, firstn_rev, rev_involutive. fold kept.
    apply pop_leading_no_function.
    apply Forall_drop. apply List.Forall_forall. intros item Hin.
    apply filter_In in Hin as [_ Hin]. unfold _valid_item in Hin.
    destruct (is_function_item item); [|reflexivity].
    by destruct (negb keep_system_message && is_system_message item). }
  split; [exact Heq|]. rewrite Heq, length_skipn. lia.
Qed.

Lemma truncation_last_n_kept_witness :
  1 <= 1
  /\ _truncate_chat_ctx sample_history (Some 1) (Some false) (Some false)
     = [message "m2" assistant "Gracias, Ana."].
Proof.
  split; [lia|].
  exact (proj1 (truncation_last_n_kept sample_history 1 false ltac:(lia))).
Defined.

(** X4: the lists the truncation returns unchanged are exactly those whose
    items all pass the filter, that fit the window of [max N 1] items and
    that do not start with a function item. *)
Theorem truncation_fixed_points (items : list ChatItem) (n : option Z)
    (keep_system_message keep_function_call : option bool) :
  _truncate_chat_ctx items n keep_system_message keep_function_call = items
  <-> (Forall (fun item => _valid_item (default false keep_system_message)
                                       (default false keep_function_call) item
                           = true) items
       /\ Z.of_nat (length items) <= Z.max (default 6 n) 1
       /\ match items with
          | [] => True
          | item :: _ => is_function_item item = false
          end).
Proof.
  unfold _truncate_chat_ctx.
  set (N := default 6 n). set (ks := default false keep_system_message).
  set (kf := default false keep_function_call).
  split.
  - intros Hfix.
    pose proof (truncate_with_valid items N ks kf) as Hv.
    pose proof (truncate_with_length items N ks kf) as Hl.
    pose proof (truncate_with_head items N ks kf) as Hh.
    rewrite Hfix in Hv, Hl, Hh. done.
  - intros (Hv & Hl & Hh). unfold truncate_with.
    rewrite collect_all_valid.
    + simpl. rewrite rev_involutive. by apply pop_leading_fixed.
    + by apply Forall_rev.
    + simpl. by rewrite length_rev.
Qed.

(** ** More on entering an agent *)

Lemma spec_carried_over_facts (own previous : list ChatItem) :
  spec_carried_over own previous `sublist_of` previous
  /\ (length (spec_carried_over own previous) <= 6)%nat
  /\ Forall (fun item => is_system_message item = false
                         /\ ~ In (item_id item) (map item_id own))
            (spec_carried_over own previous).
Proof.
  unfold spec_carried_over, _truncate_chat_ctx. cbn [default from_option id].
  split; [|split].
  - etransitivity; [apply filter_sublist|].
    destruct (truncate_with_suffix previous 6 false true) as (older & Holder).
    etransitivity; [|apply (filter_sublist (_valid_item false true))].
    rewrite Holder. by apply sublist_inserts_l.
  - etransitivity; [apply filter_length_le|].
    pose proof (truncate_with_length_pos previous 6 false true). lia.
  - apply List.Forall_forall. intros item [Hin Hnew]%filter_In. split.
    + pose proof (truncate_with_valid previous 6 false true) as Hv.
      rewrite List.Forall_forall in Hv. specialize (Hv _ Hin).
      unfold _valid_item in Hv. by destruct (is_system_message item).
    + intros Hocc. apply negb_true_iff in Hnew.
      enough (id_occurs own item = true) by congruence.
      apply existsb_exists. exists (item_id item).
      split; [exact Hocc|apply String.eqb_refl].
Qed.

Lemma on_enter_carried_structure `{Rendering} (self : Agent)
    (new_id : string) (s : Session) :
  exists carried content,
    entered_chat_ctx self new_id s
    = agent_chat_ctx s self ++ carried ++ [message new_id system content]
    /\ carried `sublist_of`
         from_option (agent_chat_ctx s) [] (prev_agent (session_userdata s))
    /\ Forall (fun item => is_system_message item = false
                           /\ ~ In (item_id item)
                                   (map item_id (agent_chat_ctx s self)))
              carried
    /\ (length carried <= 6)%nat.
Proof.
  rewrite entered_chat_ctx_spec. unfold spec_entered_chat_ctx.
  destruct (prev_agent (session_userdata s)) as [prev|];
    cbn [fmap option_fmap option_map from_option].
  - destruct (spec_carried_over_facts (agent_chat_ctx s self)
                (agent_chat_ctx s prev)) as (Hsub & Hlen & Hall).
    eexists _, _. split; [reflexivity|]. split; [exact Hsub|].
    split; [exact Hall|exact Hlen].
  - exists [], (entered_content self (session_userdata s)).
    split; [reflexivity|]. split; [constructor|]. split; [constructor|].
    simpl. lia.
Qed.

(** X5: entering an agent puts between its own context and the new summary
    message at most six items, taken in their order from the previous
    agent's context; none of them is a system message and none has an id
    the agent's own context already has.  That is the context [on_enter]
    builds; the agent's context afterwards is this list without the
    function items of tools the agent does not have, so it has at least one
    and at most seven items more than the agent's own context had, and when
    no such function item is in it, it is the built list itself and has
    grown by at least one item. *)
Theorem on_enter_carries_bounded_history `{Rendering} (self : Agent)
    (new_id : string) (s : Session) :
  let own := agent_chat_ctx s self in
  let previous :=
    from_option (agent_chat_ctx s) [] (prev_agent (session_userdata s)) in
  let live := agent_chat_ctx (on_enter self new_id s).1 self in
  exists carried content,
    entered_chat_ctx self new_id s
    = own ++ carried ++ [message new_id system content]
    /\ live = spec_live_chat_ctx self
                (own ++ carried ++ [message new_id system content])
    /\ carried `sublist_of` previous
    /\ (length carried <= 6)%nat
    /\ Forall (fun item => is_system_message item = false
                           /\ ~ In (item_id item) (map item_id own)) carried
    /\ (1 <= length live <= length own + 7)%nat
    /\ (Forall (fun item => tool_is_offered self item = true) (own ++ carried) ->
        live = own ++ carried ++ [message new_id system content]
        /\ (length own + 1 <= length live)%nat).
Proof.
  intros own previous live. subst own previous live.
  destruct (on_enter_carried_structure self new_id s)
    as (carried & content & Hctx & Hsub & Hall & Hlen).
  exists carried, content. rewrite on_enter_live_ctx, Hctx.
  split; [reflexivity|]. split; [reflexivity|]. split; [exact Hsub|].
  split; [exact Hlen|]. split; [exact Hall|].
  unfold spec_live_chat_ctx. split.
  - split.
    + rewrite !List.filter_app, !length_app. simpl. lia.
    + etransitivity; [apply filter_length_le|].
      rewrite !length_app. simpl. lia.
  - intros Hoffered. rewrite filter_all.
    + split; [reflexivity|]. rewrite !length_app. simpl. lia.
    + rewrite app_assoc. apply Forall_app. split; [exact Hoffered|].
      by constructor.
Qed.

(** X6: entering an agent keeps item ids unique: when the agent's own
    context and the previous agent's context each have no id twice and the
    id drawn for the summary message is in neither, the entered context has
    no id twice. *)
Theorem on_enter_keeps_ids_unique `{Rendering} (self : Agent)
    (new_id : string) (s : Session) :
  let own := agent_chat_ctx s self in
  let previous :=
    from_option (agent_chat_ctx s) [] (prev_agent (session_userdata s)) in
  NoDup (map item_id own) ->
  NoDup (map item_id previous) ->
  ~ In new_id (map item_id own) ->
  ~ In new_id (map item_id previous) ->
  NoDup (map item_id (agent_chat_ctx (on_enter self new_id s).1 self)).
Proof.
  intros own previous Hown Hprev Hnew_own Hnew_prev.
  rewrite on_enter_live_ctx.
  assert (Hlive : map item_id
                    (spec_live_chat_ctx self (entered_chat_ctx self new_id s))
                  `sublist_of` map item_id (entered_chat_ctx self new_id s))
    by (apply fmap_sublist, filter_sublist).
  eapply sublist_NoDup; [|exact Hlive].
  destruct (on_enter_carried_structure self new_id s)
    as (carried & content & -> & Hsub & Hall & _).
  fold own in Hall |- *. fold previous in Hsub.
  rewrite !map_app. cbn [map item_id].
  assert (Hsub_ids : map item_id carried `sublist_of` map item_id previous)
    by (by apply fmap_sublist).
  apply NoDup_app. split; [exact Hown|]. split.
  - intros i Hi [Hc|Hn%list_elem_of_In]%elem_of_app.
    + apply list_elem_of_In, in_map_iff in Hc as (item & <- & Hitem).
      rewrite List.Forall_forall in Hall.
      apply (Hall _ Hitem). by apply list_elem_of_In.
    + destruct Hn as [<-|[]]. by apply Hnew_own, list_elem_of_In.
  - apply NoDup_app. split; [by eapply sublist_NoDup|]. split.
    + intros i Hi Hn%list_elem_of_In. destruct Hn as [<-|[]].
      apply Hnew_prev, list_elem_of_In. by eapply sublist_subseteq.
    + apply NoDup_singleton.
Qed.

Lemma on_enter_keeps_ids_unique_witness :
  let s := session_after order_run in
  NoDup (map item_id (agent_chat_ctx s Checkout))
  /\ NoDup (map item_id (from_option (agent_chat_ctx s) []
                           (prev_agent (session_userdata s))))
  /\ ~ In "item_9" (map item_id (agent_chat_ctx s Checkout))
  /\ ~ In "item_9" (map item_id (from_option (agent_chat_ctx s) []
                                   (prev_agent (session_userdata s))))
  /\ NoDup (map item_id
              (agent_chat_ctx
                 (on_enter (H := sample_rendering) Checkout "item_9" s).1
                 Checkout)).
Proof.
  intros s.
  assert (H1 : NoDup (map item_id (agent_chat_ctx s Checkout)))
    by (apply (bool_decide_unpack _); vm_compute; exact I).
  assert (H2 : NoDup (map item_id (from_option (agent_chat_ctx s) []
                                     (prev_agent (session_userdata s)))))
    by (apply (bool_decide_unpack _); vm_compute; exact I).
  assert (H3 : ~ In "item_9" (map item_id (agent_chat_ctx s Checkout)))
    by (intros Hin; vm_compute in Hin; intuition discriminate).
  assert (H4 : ~ In "item_9" (map item_id (from_option (agent_chat_ctx s) []
                                             (prev_agent (session_userdata s)))))
    by (intros Hin; vm_compute in Hin; intuition discriminate).
  split; [exact H1|]. split; [exact H2|]. split; [exact H3|].
  split; [exact H4|].
  exact (on_enter_keeps_ids_unique (H := sample_rendering) Checkout "item_9" s
           H1 H2 H3 H4).
Defined.

(** ** More on the tools *)

(** Splits on the agent and the call, keeps the tools the agent offers and
    unfolds each down to its guards and lookups. *)
Ltac offered_cases Hfind :=
  match type of Hfind with
  | find_tool ?a ?call = Some _ =>
      destruct a, call; simpl in Hfind; try discriminate Hfind;
      injection Hfind as <-; tool_cases
  end.

(** X7: [confirm_reservation] hands off to the greeter exactly when name,
    phone and reservation time are all set and not empty.  A missing name
    or phone is reported first, with its own message, then a missing time;
    a refusal writes nothing. *)
Theorem confirm_reservation_guard (cur : Agent) (u : UserData) :
  agents u !! "greeter" = Some Greeter ->
  let outcome := Reservation.confirm_reservation cur u in
  (reservation_guard u = true ->
     outcome = (set_prev_agent (Some cur) u,
                inr (Handoff Greeter "Transferring to greeter.")))
  /\ (opt_truth str_truth (customer_name u)
      && opt_truth str_truth (customer_phone u) = false ->
     outcome
     = (u, inr (Str "Please provide your name and phone number first.")))
  /\ (opt_truth str_truth (customer_name u)
      && opt_truth str_truth (customer_phone u) = true ->
     opt_truth str_truth (reservation_time u) = false ->
     outcome = (u, inr (Str "Please provide reservation time first.")))
  /\ (agent_after Reservation (Reservation.confirm_reservation Reservation u)
      = Greeter <-> reservation_guard u = true).
Proof.
  intros Hreg outcome. subst outcome. unfold reservation_guard. tool_unfold.
  destruct (opt_truth str_truth (customer_name u)),
    (opt_truth str_truth (customer_phone u)),
    (opt_truth str_truth (reservation_time u));
    cbn [negb orb andb]; rewrite ?Hreg; record_simpl;
    repeat split; intros; try discriminate; try reflexivity; congruence.
Qed.

Lemma confirm_reservation_guard_witness :
  agents (userdata_after reservation_run) !! "greeter" = Some Greeter
  /\ reservation_guard (userdata_after reservation_run) = true
  /\ Reservation.confirm_reservation Reservation (userdata_after reservation_run)
     = (set_prev_agent (Some Reservation) (userdata_after reservation_run),
        inr (Handoff Greeter "Transferring to greeter.")).
Proof.
  assert (Hreg : agents (userdata_after reservation_run) !! "greeter"
                 = Some Greeter) by (vm_compute; reflexivity).
  assert (Hguard : reservation_guard (userdata_after reservation_run) = true)
    by (vm_compute; reflexivity).
  split; [exact Hreg|]. split; [exact Hguard|].
  exact (proj1 (confirm_reservation_guard Reservation
                  (userdata_after reservation_run) Hreg) Hguard).
Defined.

(** X8: a tool that answers with a string instead of handing off --
    [confirm_reservation], [to_checkout] or [confirm_checkout] refusing --
    has written nothing: the whole record is as it was. *)
Theorem refused_handoff_writes_nothing `{Rendering} (a cur : Agent)
    (call : ToolCall) (tool : Tool ToolResult) (u : UserData)
    (name msg : string) :
  find_tool a call = Some tool ->
  target_name call = Some name ->
  (tool cur u).2 = inr (Str msg) ->
  (tool cur u).1 = u.
Proof.
  intros Hfind Hname. revert Hname.
  offered_cases Hfind; intros Hname Hres; try discriminate; reflexivity.
Qed.

Lemma refused_handoff_writes_nothing_witness :
  find_tool (H := sample_rendering) Takeaway call_to_checkout
    = Some Takeaway.to_checkout
  /\ target_name call_to_checkout = Some "checkout"
  /\ (Takeaway.to_checkout Takeaway (userdata_after [])).2
     = inr (Str "No takeaway order found. Please make an order first.")
  /\ (Takeaway.to_checkout Takeaway (userdata_after [])).1
     = userdata_after [].
Proof.
  split; [reflexivity|]. split; [reflexivity|].
  assert (Hres : (Takeaway.to_checkout Takeaway (userdata_after [])).2
                 = inr (Str "No takeaway order found. Please make an order first."))
    by (vm_compute; reflexivity).
  split; [exact Hres|].
  exact (refused_handoff_writes_nothing (H := sample_rendering)
           Takeaway Takeaway call_to_checkout Takeaway.to_checkout
           (userdata_after []) "checkout" _ eq_refl eq_refl Hres).
Defined.

(** X9: a hand-off writes [prev_agent] and nothing else, except that
    [confirm_checkout] also sets [checked_out]; no other tool that hands
    off touches [checked_out]. *)
Theorem handoff_writes_only_prev_agent `{Rendering} (a cur : Agent)
    (call : ToolCall) (tool : Tool ToolResult) (u : UserData)
    (next : Agent) (msg : string) :
  find_tool a call = Some tool ->
  (tool cur u).2 = inr (Handoff next msg) ->
  unchanged_outside [f_prev_agent; f_checked_out] u (tool cur u).1
  /\ prev_agent (tool cur u).1 = Some cur
  /\ checked_out (tool cur u).1
     = match call with
       | call_confirm_checkout => true
       | _ => checked_out u
       end.
Proof.
  intros Hfind.
  offered_cases Hfind; intros Hres; try discriminate;
    (split; [frame_cases|split; reflexivity]).
Qed.

Lemma handoff_writes_only_prev_agent_witness :
  find_tool (H := sample_rendering) Checkout call_confirm_checkout
    = Some Checkout.confirm_checkout
  /\ (Checkout.confirm_checkout Checkout (userdata_after paid_run)).2
     = inr (Handoff Greeter "Transferring to greeter.")
  /\ unchanged_outside [f_prev_agent; f_checked_out] (userdata_after paid_run)
       (Checkout.confirm_checkout Checkout (userdata_after paid_run)).1
  /\ prev_agent (Checkout.confirm_checkout Checkout (userdata_after paid_run)).1
     = Some Checkout
  /\ checked_out (Checkout.confirm_checkout Checkout (userdata_after paid_run)).1
     = true.
Proof.
  split; [reflexivity|].
  assert (Hres : (Checkout.confirm_checkout Checkout (userdata_after paid_run)).2
                 = inr (Handoff Greeter "Transferring to greeter."))
    by (vm_compute; reflexivity).
  split; [exact Hres|].
  exact (handoff_writes_only_prev_agent (H := sample_rendering)
           Checkout Checkout call_confirm_checkout Checkout.confirm_checkout
           (userdata_after paid_run) Greeter _ eq_refl Hres).
Defined.

(** X10: the only exception a tool raises is the [KeyError] of a target
    name the registry lacks.  The record is then as it was, [prev_agent]
    included, except that [confirm_checkout] has already set [checked_out]
    when the lookup fails. *)
Theorem missing_target_raises_key_error `{Rendering} (a cur : Agent)
    (call : ToolCall) (tool : Tool ToolResult) (u : UserData) (e : Exn) :
  find_tool a call = Some tool ->
  (tool cur u).2 = inl e ->
  exists name,
    target_name call = Some name
    /\ e = KeyError name
    /\ agents u !! name = None
    /\ (tool cur u).1
       = match call with
         | call_confirm_checkout => set_checked_out true u
         | _ => u
         end.
Proof.
  intros Hfind.
  offered_cases Hfind; intros Hres; try discriminate;
    injection Hres as <-; eexists; repeat split; eauto.
Qed.

Lemma missing_target_raises_key_error_witness :
  find_tool (H := sample_rendering) Checkout call_confirm_checkout
    = Some Checkout.confirm_checkout
  /\ (Checkout.confirm_checkout Checkout unregistered_userdata).2
     = inl (KeyError "greeter")
  /\ checked_out unregistered_userdata = false
  /\ exists name,
       target_name call_confirm_checkout = Some name
       /\ KeyError "greeter" = KeyError name
       /\ agents unregistered_userdata !! name = None
       /\ (Checkout.confirm_checkout Checkout unregistered_userdata).1
          = set_checked_out true unregistered_userdata.
Proof.
  split; [reflexivity|].
  assert (Hres : (Checkout.confirm_checkout Checkout unregistered_userdata).2
                 = inl (KeyError "greeter")) by (vm_compute; reflexivity).
  split; [exact Hres|]. split; [vm_compute; reflexivity|].
  exact (missing_target_raises_key_error (H := sample_rendering)
           Checkout Checkout call_confirm_checkout Checkout.confirm_checkout
           unregistered_userdata _ eq_refl Hres).
Defined.

Lemma keeps_what_is_set_refl (u : UserData) : keeps_what_is_set u u.
Proof. unfold keeps_what_is_set. tauto. Qed.

Lemma keeps_what_is_set_trans (u1 u2 u3 : UserData) :
  keeps_what_is_set u1 u2 -> keeps_what_is_set u2 u3 ->
  keeps_what_is_set u1 u3.
Proof. unfold keeps_what_is_set. tauto. Qed.

Lemma tool_keeps_what_is_set `{Rendering} (a cur : Agent) (call : ToolCall)
    (tool : Tool ToolResult) (u : UserData) :
  find_tool a call = Some tool -> keeps_what_is_set u (tool cur u).1.
Proof.
  intros Hfind. unfold keeps_what_is_set.
  offered_cases Hfind; repeat split; intros; eauto.
Qed.

(** X11: no tool takes anything back: after any tool of any agent a field
    that was set is still set and [checked_out], if it was true, is still
    true. *)
Theorem tools_never_unset_a_field `{Rendering} (a cur : Agent)
    (call : ToolCall) (tool : Tool ToolResult) (u : UserData) :
  find_tool a call = Some tool ->
  keeps_what_is_set u (tool cur u).1.
Proof. apply tool_keeps_what_is_set. Qed.

Lemma tools_never_unset_a_field_witness :
  find_tool (H := sample_rendering) Checkout
    (call_update_credit_card "" "" "") = Some (Checkout.update_credit_card "" "" "")
  /\ keeps_what_is_set (userdata_after paid_run)
       (Checkout.update_credit_card "" "" "" Checkout (userdata_after paid_run)).1.
Proof.
  split; [reflexivity|].
  exact (tools_never_unset_a_field (H := sample_rendering) Checkout Checkout
           (call_update_credit_card "" "" "") _ (userdata_after paid_run)
           eq_refl).
Defined.

(** X12: who can write what.  Only the takeaway agent's tools change the
    order, only the reservation agent's the reservation time, only the
    checkout agent's the expense, the card fields and [checked_out]; name
    and phone change only under the reservation or the checkout agent; and
    no tool of any agent writes the registry. *)
Theorem fields_have_their_writers `{Rendering} (a cur : Agent)
    (call : ToolCall) (tool : Tool ToolResult) (u : UserData) :
  find_tool a call = Some tool ->
  let u' := (tool cur u).1 in
  (order u' <> order u -> a = Takeaway)
  /\ (reservation_time u' <> reservation_time u -> a = Reservation)
  /\ (expense u' <> expense u
      \/ customer_credit_card u' <> customer_credit_card u
      \/ customer_credit_card_expiry u' <> customer_credit_card_expiry u
      \/ customer_credit_card_cvv u' <> customer_credit_card_cvv u
      \/ checked_out u' <> checked_out u -> a = Checkout)
  /\ (customer_name u' <> customer_name u
      \/ customer_phone u' <> customer_phone u ->
      a = Reservation \/ a = Checkout)
  /\ agents u' = agents u.
Proof.
  intros Hfind u'. subst u'.
  offered_cases Hfind; repeat split; intros; try tauto; auto.
Qed.

Lemma fields_have_their_writers_witness :
  find_tool (H := sample_rendering) Takeaway (call_update_order ["Cafe"])
    = Some (Takeaway.update_order (H := sample_rendering) ["Cafe"])
  /\ order (Takeaway.update_order (H := sample_rendering) ["Cafe"] Takeaway
              (userdata_after order_run)).1
     <> order (userdata_after order_run)
  /\ agents (Takeaway.update_order (H := sample_rendering) ["Cafe"] Takeaway
               (userdata_after order_run)).1
     = agents (userdata_after order_run).
Proof.
  split; [reflexivity|]. split; [vm_compute; discriminate|].
  exact (proj2 (proj2 (proj2 (proj2
           (fields_have_their_writers (H := sample_rendering) Takeaway Takeaway
              (call_update_order ["Cafe"]) _ (userdata_after order_run)
              eq_refl))))).
Defined.

(** X13: updates compose as assignments do.  Of two calls of the same
    update tool the later one decides the record, so a repeated call changes
    nothing more; updates of different fields give the same record in
    either order. *)
Theorem updates_compose `{Rendering} (cur : Agent) (u : UserData) :
  (forall items1 items2,
     (Takeaway.update_order items2 cur
        (Takeaway.update_order items1 cur u).1).1
     = (Takeaway.update_order items2 cur u).1)
  /\ (forall n1 e1 c1 n2 e2 c2,
     (Checkout.update_credit_card n2 e2 c2 cur
        (Checkout.update_credit_card n1 e1 c1 cur u).1).1
     = (Checkout.update_credit_card n2 e2 c2 cur u).1)
  /\ (forall x1 x2,
     (Checkout.confirm_expense x2 cur (Checkout.confirm_expense x1 cur u).1).1
     = (Checkout.confirm_expense x2 cur u).1)
  /\ (forall name phone,
     (update_phone phone cur (update_name name cur u).1).1
     = (update_name name cur (update_phone phone cur u).1).1)
  /\ (forall x number expiry cvv,
     (Checkout.update_credit_card number expiry cvv cur
        (Checkout.confirm_expense x cur u).1).1
     = (Checkout.confirm_expense x cur
          (Checkout.update_credit_card number expiry cvv cur u).1).1)
  /\ (forall time name,
     (update_name name cur (Reservation.update_reservation_time time cur u).1).1
     = (Reservation.update_reservation_time time cur (update_name name cur u).1).1).
Proof. repeat split; intros; tool_unfold; reflexivity. Qed.

(** X14: with the registry that [entrypoint] fills in, no tool raises, and
    every hand-off goes along the agents' graph: the greeter hands off to
    the reservation or the takeaway agent, the reservation agent to the
    greeter, the takeaway agent to the greeter or the checkout, the checkout
    to the greeter or the takeaway agent; no agent hands off to itself. *)
Theorem handoffs_follow_the_graph `{Rendering} (a cur : Agent)
    (call : ToolCall) (tool : Tool ToolResult) (u : UserData) :
  find_tool a call = Some tool ->
  entrypoint_registry u ->
  (forall e, (tool cur u).2 <> inl e)
  /\ (forall next msg, (tool cur u).2 = inr (Handoff next msg) ->
        hands_off_to a next = true /\ next <> a).
Proof.
  intros Hfind (Hg & Hr & Ht & Hc).
  offered_cases Hfind; simplify_eq;
    (split; [intros e He; discriminate He|]);
    intros next msg Hres; try discriminate Hres;
    injection Hres as <- _; by split.
Qed.

Lemma handoffs_follow_the_graph_witness :
  find_tool (H := sample_rendering) Takeaway call_to_checkout
    = Some Takeaway.to_checkout
  /\ entrypoint_registry (userdata_after order_run)
  /\ (forall e, (Takeaway.to_checkout Takeaway (userdata_after order_run)).2
                <> inl e)
  /\ (forall next msg,
        (Takeaway.to_checkout Takeaway (userdata_after order_run)).2
        = inr (Handoff next msg) ->
        hands_off_to Takeaway next = true /\ next <> Takeaway).
Proof.
  split; [reflexivity|].
  assert (Hreg : entrypoint_registry (userdata_after order_run))
    by (repeat split; vm_compute; reflexivity).
  split; [exact Hreg|].
  exact (handoffs_follow_the_graph (H := sample_rendering) Takeaway Takeaway
           call_to_checkout _ (userdata_after order_run) eq_refl Hreg).
Defined.

(** ** Invariants of a conversation *)

(** One event either leaves the record and the current agent alone (a chat
    turn) or runs a tool of the current agent. *)
Lemma handle_step `{Rendering} (ev : Event) (s s' : Session)
    (effects : list Effect) :
  handle ev s = Some (s', effects) ->
  (session_userdata s' = session_userdata s
   /\ session_current_agent s' = session_current_agent s)
  \/ exists call tool,
       find_tool (session_current_agent s) call = Some tool
       /\ session_userdata s'
          = (tool (session_current_agent s) (session_userdata s)).1
       /\ session_current_agent s'
          = agent_after (session_current_agent s)
              (tool (session_current_agent s) (session_userdata s)).
Proof.
  destruct ev as [call new_id|items]; simpl.
  - destruct (find_tool (session_current_agent s) call) as [tool|] eqn:Hfind;
      [|discriminate].
    intros Hs'. right. exists call, tool. split; [exact Hfind|].
    destruct (tool (session_current_agent s) (session_userdata s)) as [u' r].
    unfold agent_after in *. simpl in *.
    destruct r as [e|[msg|next msg]]; by injection Hs' as <- _.
  - intros [= <- _]. by left.
Qed.

(** A property of the current agent and the record that every tool of the
    current agent keeps holds along every run. *)
Lemma run_invariant `{Rendering} (P : Agent -> UserData -> Prop) :
  (forall cur u call tool,
     find_tool cur call = Some tool -> P cur u ->
     P (agent_after cur (tool cur u)) (tool cur u).1) ->
  forall events s s',
    run events s = Some s' ->
    P (session_current_agent s) (session_userdata s) ->
    P (session_current_agent s') (session_userdata s').
Proof.
  intros Hstep events. induction events as [|ev rest IH]; intros s s'; simpl.
  - by intros [= ->].
  - destruct (handle ev s) as [[s1 effects]|] eqn:Hh; [|discriminate].
    intros Hrun HP. apply (IH _ _ Hrun).
    destruct (handle_step _ _ _ _ Hh)
      as [[-> ->]|(call & tool & Hfind & -> & ->)]; [exact HP|].
    by apply (Hstep _ _ call).
Qed.

Lemma entrypoint_start `{Rendering} (new_id : string) :
  session_current_agent (entrypoint new_id).1 = Greeter
  /\ session_userdata (entrypoint new_id).1
     = set_agents
         (<["checkout" := Checkout]>
            (<["takeaway" := Takeaway]>
               (<["reservation" := Reservation]>
                  (<["greeter" := Greeter]> ∅))))
         UserData_new.
Proof. split; reflexivity. Qed.

Lemma entrypoint_has_registry `{Rendering} (new_id : string) :
  entrypoint_registry (session_userdata (entrypoint new_id).1).
Proof.
  destruct (entrypoint_start new_id) as [_ ->].
  repeat split; vm_compute; reflexivity.
Qed.

Lemma registry_of_run `{Rendering} (new_id : string) (events : list Event)
    (s : Session) :
  run events (entrypoint new_id).1 = Some s ->
  entrypoint_registry (session_userdata s).
Proof.
  intros Hrun. unfold entrypoint_registry.
  rewrite (run_agents _ _ _ Hrun). apply entrypoint_has_registry.
Qed.

(** X15: the registry is filled in once and never written again: a run
    leaves [userdata.agents] as it found it, so every session a conversation
    reaches still resolves the four names to their agents. *)
Theorem registry_is_fixed `{Rendering} (events : list Event) (s s' : Session) :
  run events s = Some s' ->
  agents (session_userdata s') = agents (session_userdata s)
  /\ (entrypoint_registry (session_userdata s) ->
      entrypoint_registry (session_userdata s'))
  /\ (forall new_id, s = (entrypoint new_id).1 ->
      entrypoint_registry (session_userdata s')).
Proof.
  intros Hrun. pose proof (run_agents _ _ _ Hrun) as Hsame.
  split; [exact Hsame|].
  unfold entrypoint_registry. rewrite Hsame. split; [tauto|].
  intros new_id ->. apply entrypoint_has_registry.
Qed.

Lemma registry_is_fixed_witness :
  run (H := sample_rendering) paid_run
      (entrypoint (H := sample_rendering) "item_0").1
    = Some (session_after paid_run)
  /\ entrypoint_registry (session_userdata (session_after paid_run)).
Proof.
  assert (Hrun : run (H := sample_rendering) paid_run
                     (entrypoint (H := sample_rendering) "item_0").1
                 = Some (session_after paid_run))
    by (vm_compute; reflexivity).
  split; [exact Hrun|].
  exact (proj2 (proj2 (registry_is_fixed (H := sample_rendering) paid_run _ _
                         Hrun)) "item_0" eq_refl).
Defined.

Lemma reachable_invariant `{Rendering} (P : Agent -> UserData -> Prop) :
  (forall new_id, P Greeter (session_userdata (entrypoint new_id).1)) ->
  (forall cur u call tool,
     find_tool cur call = Some tool ->
     entrypoint_registry u -> P cur u ->
     P (agent_after cur (tool cur u)) (tool cur u).1) ->
  forall s, reachable s ->
    P (session_current_agent s) (session_userdata s).
Proof.
  intros Hinit Hstep s (new_id & events & Hrun).
  enough (entrypoint_registry (session_userdata s)
          /\ P (session_current_agent s) (session_userdata s)) as [_ HP]
    by exact HP.
  apply (run_invariant (fun cur u => entrypoint_registry u /\ P cur u))
    with (events := events) (s := (entrypoint new_id).1); [|exact Hrun|].
  - intros cur u call tool Hfind [Hreg HP].
    split; [|by apply (Hstep _ _ call)].
    unfold entrypoint_registry.
    rewrite (tool_agents _ cur _ _ u Hfind). exact Hreg.
  - split; [apply entrypoint_has_registry|].
    destruct (entrypoint_start new_id) as [-> _]. apply Hinit.
Qed.

Lemma reachable_sample (events : list Event) :
  run (H := sample_rendering) events
      (entrypoint (H := sample_rendering) "item_0").1
    = Some (session_after events) ->
  reachable (H := sample_rendering) (session_after events).
Proof. intros Hrun. by exists "item_0", events. Qed.

(** X16: in every session a conversation reaches, the previous agent fits
    the current one: none is set only while the greeter that started is
    still current, and otherwise the previous agent is one that hands off
    to the current agent, so never the current agent itself. *)
Theorem previous_agent_fits_current `{Rendering} (s : Session) :
  reachable s ->
  previous_fits (session_current_agent s) (session_userdata s)
  /\ prev_agent (session_userdata s) <> Some (session_current_agent s).
Proof.
  intros Hreach.
  assert (Hfits : previous_fits (session_current_agent s) (session_userdata s)).
  { revert s Hreach. apply reachable_invariant.
    - intros new_id. destruct (entrypoint_start new_id) as [_ ->]. reflexivity.
    - intros cur u call tool Hfind (Hg & Hr & Ht & Hc). unfold previous_fits.
      offered_cases Hfind; simplify_eq; intros Hfits;
        first [exact Hfits|reflexivity]. }
  split; [exact Hfits|].
  unfold previous_fits in Hfits. intros Heq. rewrite Heq in Hfits.
  by destruct (session_current_agent s).
Qed.

Lemma previous_agent_fits_current_witness :
  reachable (H := sample_rendering) (session_after paid_run)
  /\ session_current_agent (session_after paid_run) = Checkout
  /\ prev_agent (session_userdata (session_after paid_run)) = Some Takeaway
  /\ previous_fits (session_current_agent (session_after paid_run))
       (session_userdata (session_after paid_run)).
Proof.
  assert (Hreach : reachable (H := sample_rendering) (session_after paid_run))
    by (apply reachable_sample; vm_compute; reflexivity).
  split; [exact Hreach|]. split; [vm_compute; reflexivity|].
  split; [vm_compute; reflexivity|].
  exact (proj1 (previous_agent_fits_current (H := sample_rendering) _ Hreach)).
Defined.

(** X17: the checkout agent is current only with an order: in every session
    a conversation reaches with the checkout agent current, the order is not
    empty and the previous agent is the takeaway agent. *)
Theorem checkout_has_an_order `{Rendering} (s : Session) :
  reachable s ->
  session_current_agent s = Checkout ->
  order (session_userdata s) <> []
  /\ prev_agent (session_userdata s) = Some Takeaway.
Proof.
  revert s.
  apply (reachable_invariant
           (fun cur u => cur = Checkout ->
                         order u <> [] /\ prev_agent u = Some Takeaway)).
  - intros new_id. discriminate.
  - intros cur u call tool Hfind (Hg & Hr & Ht & Hc).
    offered_cases Hfind; simplify_eq; intros Hinv Hcur;
      try discriminate Hcur; try (by apply Hinv).
    split; [|reflexivity]. intros Hempty.
    match goal with
    | Hguard : negb (list_truth (order u)) = false |- _ =>
        rewrite Hempty in Hguard; discriminate Hguard
    end.
Qed.

Lemma checkout_has_an_order_witness :
  reachable (H := sample_rendering) (session_after order_run)
  /\ session_current_agent (session_after order_run) = Checkout
  /\ order (session_userdata (session_after order_run)) <> []
  /\ prev_agent (session_userdata (session_after order_run)) = Some Takeaway.
Proof.
  assert (Hreach : reachable (H := sample_rendering) (session_after order_run))
    by (apply reachable_sample; vm_compute; reflexivity).
  assert (Hcur : session_current_agent (session_after order_run) = Checkout)
    by (vm_compute; reflexivity).
  split; [exact Hreach|]. split; [exact Hcur|].
  exact (checkout_has_an_order (H := sample_rendering) _ Hreach Hcur).
Defined.

Lemma opt_truth_is_Some {A} (truth : A -> bool) (x : option A) :
  opt_truth truth x = true -> is_Some x.
Proof. destruct x; [eauto|discriminate]. Qed.

Lemma tool_keeps_payment `{Rendering} (a cur : Agent) (call : ToolCall)
    (tool : Tool ToolResult) (u : UserData) :
  find_tool a call = Some tool ->
  (checked_out u = true -> payment_given u) ->
  checked_out (tool cur u).1 = true -> payment_given (tool cur u).1.
Proof.
  intros Hfind. unfold payment_given.
  offered_cases Hfind; intros Hinv Hout;
    try (specialize (Hinv Hout); destruct Hinv as (? & ? & ? & ?));
    repeat split; eauto;
    repeat match goal with
      | Hg : negb _ = false |- _ => apply negb_false_iff in Hg
      | Hg : _ || _ = false |- _ => apply orb_false_elim in Hg as [? ?]
      end;
    eauto using opt_truth_is_Some.
Qed.

(** X18: [checked_out] is true only with the payment data given: along a
    run that starts from a record of which this holds -- the record of
    [entrypoint] is one -- whenever [checked_out] is true, the expense and
    the three card fields are set. *)
Theorem checked_out_needs_payment `{Rendering} (events : list Event)
    (s s' : Session) :
  run events s = Some s' ->
  (checked_out (session_userdata s) = true ->
   payment_given (session_userdata s)) ->
  checked_out (session_userdata s') = true ->
  payment_given (session_userdata s').
Proof.
  intros Hrun.
  apply (run_invariant
           (fun _ u => checked_out u = true -> payment_given u))
    with (events := events) (s := s) (s' := s'); [|exact Hrun].
  intros cur u call tool Hfind. by apply (tool_keeps_payment cur cur call).
Qed.

Lemma checked_out_needs_payment_witness :
  let events := paid_run ++ [tool_call call_confirm_checkout "item_3"] in
  run (H := sample_rendering) events
      (entrypoint (H := sample_rendering) "item_0").1
    = Some (session_after events)
  /\ checked_out (session_userdata (session_after events)) = true
  /\ payment_given (session_userdata (session_after events)).
Proof.
  intros events.
  assert (Hrun : run (H := sample_rendering) events
                     (entrypoint (H := sample_rendering) "item_0").1
                 = Some (session_after events)) by (vm_compute; reflexivity).
  assert (Hout : checked_out (session_userdata (session_after events)) = true)
    by (vm_compute; reflexivity).
  split; [exact Hrun|]. split; [exact Hout|].
  apply (checked_out_needs_payment (H := sample_rendering) events _ _ Hrun);
    [|exact Hout].
  intros Hfalse. vm_compute in Hfalse. discriminate Hfalse.
Defined.

(** X19: a conversation never loses what it was told: along every run a
    field that was set stays set, and [checked_out], once true, stays
    true. *)
Theorem runs_never_unset_a_field `{Rendering} (events : list Event)
    (s s' : Session) :
  run events s = Some s' ->
  keeps_what_is_set (session_userdata s) (session_userdata s').
Proof.
  intros Hrun.
  apply (run_invariant
           (fun _ u => keeps_what_is_set (session_userdata s) u))
    with (events := events) (s := s) (s' := s');
    [|exact Hrun|apply keeps_what_is_set_refl].
  intros cur u call tool Hfind Hkept.
  eapply keeps_what_is_set_trans; [exact Hkept|].
  by apply (tool_keeps_what_is_set cur cur call).
Qed.

Lemma runs_never_unset_a_field_witness :
  run (H := sample_rendering) paid_run
      (entrypoint (H := sample_rendering) "item_0").1
    = Some (session_after paid_run)
  /\ keeps_what_is_set
       (session_userdata (entrypoint (H := sample_rendering) "item_0").1)
       (session_userdata (session_after paid_run)).
Proof.
  assert (Hrun : run (H := sample_rendering) paid_run
                     (entrypoint (H := sample_rendering) "item_0").1
                 = Some (session_after paid_run)) by (vm_compute; reflexivity).
  split; [exact Hrun|].
  exact (runs_never_unset_a_field (H := sample_rendering) paid_run _ _ Hrun).
Defined.

(** X20: the greeter is one call away: in every session a conversation
    reaches with another agent current, [to_greeter] is offered and hands
    off: the greeter becomes current, the agent that was current becomes
    the previous agent, and the rest of the record is as it was. *)
Theorem greeter_is_one_call_away `{Rendering} (s : Session) (new_id : string) :
  reachable s ->
  session_current_agent s <> Greeter ->
  exists s' effects,
    handle (tool_call call_to_greeter new_id) s = Some (s', effects)
    /\ session_current_agent s' = Greeter
    /\ session_userdata s'
       = set_prev_agent (Some (session_current_agent s)) (session_userdata s).
Proof.
  intros (start_id & events & Hrun) Hcur.
  destruct (registry_of_run _ _ _ Hrun) as (Hg & _).
  cbn [handle].
  assert (Hfind : find_tool (session_current_agent s) call_to_greeter
                  = Some to_greeter)
    by (destruct (session_current_agent s); done).
  rewrite Hfind.
  assert (Hout : to_greeter (session_current_agent s) (session_userdata s)
                 = (set_prev_agent (Some (session_current_agent s))
                      (session_userdata s),
                    inr (Handoff Greeter "Transferring to greeter."))).
  { tool_unfold. by rewrite Hg. }
  rewrite Hout. unfold agent_after, on_enter. cbn [fst snd].
  eexists _, _. split; [reflexivity|]. split; reflexivity.
Qed.

Lemma greeter_is_one_call_away_witness :
  reachable (H := sample_rendering) (session_after order_run)
  /\ session_current_agent (session_after order_run) <> Greeter
  /\ exists s' effects,
       handle (H := sample_rendering) (tool_call call_to_greeter "item_9")
              (session_after order_run) = Some (s', effects)
       /\ session_current_agent s' = Greeter
       /\ session_userdata s'
          = set_prev_agent
              (Some (session_current_agent (session_after order_run)))
              (session_userdata (session_after order_run)).
Proof.
  assert (Hreach : reachable (H := sample_rendering) (session_after order_run))
    by (apply reachable_sample; vm_compute; reflexivity).
  assert (Hcur : session_current_agent (session_after order_run) <> Greeter)
    by (vm_compute; discriminate).
  split; [exact Hreach|]. split; [exact Hcur|].
  exact (greeter_is_one_call_away (H := sample_rendering) _ "item_9"
           Hreach Hcur).
Defined.

(** X21: [checked_out] changes only through [confirm_checkout], only from
    false to true, and only when the expense and the three card fields pass
    its guard. *)
Theorem only_confirm_checkout_checks_out `{Rendering} (a cur : Agent)
    (call : ToolCall) (tool : Tool ToolResult) (u : UserData) :
  find_tool a call = Some tool ->
  checked_out (tool cur u).1 <> checked_out u ->
  call = call_confirm_checkout
  /\ checkout_guard u = true
  /\ checked_out u = false
  /\ checked_out (tool cur u).1 = true.
Proof.
  intros Hfind. unfold checkout_guard.
  offered_cases Hfind; intros Hchg; try (by destruct Hchg);
    repeat match goal with
      | Hg : negb _ = false |- _ => apply negb_false_iff in Hg
      | Hg : _ || _ = false |- _ => apply orb_false_elim in Hg as [? ?]
      end;
    repeat match goal with
      | Hg : opt_truth _ _ = true |- _ => rewrite Hg
      end;
    repeat split; try reflexivity;
    destruct (checked_out u); congruence.
Qed.

Lemma only_confirm_checkout_checks_out_witness :
  find_tool (H := sample_rendering) Checkout call_confirm_checkout
    = Some Checkout.confirm_checkout
  /\ checked_out (Checkout.confirm_checkout Checkout (userdata_after paid_run)).1
     <> checked_out (userdata_after paid_run)
  /\ checkout_guard (userdata_after paid_run) = true.
Proof.
  split; [reflexivity|].
  assert (Hchg : checked_out
                   (Checkout.confirm_checkout Checkout
                      (userdata_after paid_run)).1
                 <> checked_out (userdata_after paid_run))
    by (vm_compute; discriminate).
  split; [exact Hchg|].
  exact (proj1 (proj2 (only_confirm_checkout_checks_out (H := sample_rendering)
                         Checkout Checkout call_confirm_checkout _
                         (userdata_after paid_run) eq_refl Hchg))).
Defined.

(** X22: whatever the keep-count and the flags, the truncation never
    returns a list that starts with a function_call or function_call_output
    item, and unless [keep_function_call] is passed as true it returns no
    such item at all; unless [keep_system_message] is passed as true it
    returns no system message. *)
Theorem truncation_respects_the_flags (items : list ChatItem) (n : option Z)
    (keep_system_message keep_function_call : option bool) :
  let result :=
    _truncate_chat_ctx items n keep_system_message keep_function_call in
  match result with
  | [] => True
  | item :: _ => is_function_item item = false
  end
  /\ (default false keep_function_call = false ->
      Forall (fun item => is_function_item item = false) result)
  /\ (default false keep_system_message = false ->
      Forall (fun item => is_system_message item = false) result).
Proof.
  intros result. subst result. unfold _truncate_chat_ctx.
  split; [apply truncate_with_head|].
  pose proof (truncate_with_valid items (default 6 n)
                (default false keep_system_message)
                (default false keep_function_call)) as Hv.
  split; intros Hflag; (eapply Forall_impl; [exact Hv|]);
    intros item; unfold _valid_item; rewrite Hflag;
    destruct (is_system_message item), (is_function_item item),
      (default false keep_system_message),
      (default false keep_function_call); simpl; congruence.
Qed.

(** X23: a tool call that hands off makes the session enter the target:
    the target is current, the agent that was current is the previous
    agent, the target's context is its own followed by what is carried over
    from the context of the agent that was current and by the summary
    message, all without the function items of tools the target does not
    have, and one reply is asked for with the tool choice "none". *)
Theorem handoff_runs_on_enter `{Rendering} (call : ToolCall) (new_id : string)
    (tool : Tool ToolResult) (s s' : Session) (effects : list Effect)
    (next : Agent) (msg : string) :
  find_tool (session_current_agent s) call = Some tool ->
  (tool (session_current_agent s) (session_userdata s)).2
    = inr (Handoff next msg) ->
  handle (tool_call call new_id) s = Some (s', effects) ->
  session_current_agent s' = next
  /\ prev_agent (session_userdata s') = Some (session_current_agent s)
  /\ (exists content,
        contains content (summarize (session_userdata s'))
        /\ agent_chat_ctx s' next
           = spec_live_chat_ctx next
               (agent_chat_ctx s next
                ++ spec_carried_over (agent_chat_ctx s next)
                     (agent_chat_ctx s (session_current_agent s))
                ++ [message new_id system content]))
  /\ Forall (fun item => tool_is_offered next item = true)
            (agent_chat_ctx s' next)
  /\ List.filter is_generate_reply effects = [generate_reply "none"].
Proof.
  intros Hfind Hres Hhandle.
  destruct (handoff_enters_target call new_id tool s s' effects next msg
              Hfind Hres Hhandle) as (Hcur & Hprev & (content & Hc & Hctx) & Heff).
  split; [exact Hcur|]. split; [exact Hprev|].
  split; [exists content; split; [exact Hc|exact Hctx]|].
  split; [|exact Heff].
  rewrite Hctx. unfold spec_live_chat_ctx.
  apply List.Forall_forall. intros item Hin.
  by apply filter_In in Hin as [_ Hin].
Qed.

Lemma handoff_runs_on_enter_witness :
  let s := session_after (removelast order_run) in
  find_tool (H := sample_rendering) (session_current_agent s) call_to_checkout
    = Some Takeaway.to_checkout
  /\ (Takeaway.to_checkout (session_current_agent s) (session_userdata s)).2
     = inr (Handoff Checkout "Transferring to checkout.")
  /\ handle (H := sample_rendering) (tool_call call_to_checkout "item_2") s
     = Some (session_after order_run,
             [log_info "entering task Checkout"; generate_reply "none"])
  /\ session_current_agent (session_after order_run) = Checkout
  /\ prev_agent (session_userdata (session_after order_run))
     = Some (session_current_agent s)
  /\ List.filter is_generate_reply
       [log_info "entering task Checkout"; generate_reply "none"]
     = [generate_reply "none"].
Proof.
  intros s.
  assert (Hfind : find_tool (H := sample_rendering) (session_current_agent s)
                    call_to_checkout = Some Takeaway.to_checkout)
    by (vm_compute; reflexivity).
  assert (Hres : (Takeaway.to_checkout (session_current_agent s)
                    (session_userdata s)).2
                 = inr (Handoff Checkout "Transferring to checkout."))
    by (vm_compute; reflexivity).
  assert (Hhandle : handle (H := sample_rendering)
                      (tool_call call_to_checkout "item_2") s
                    = Some (session_after order_run,
                            [log_info "entering task Checkout";
                             generate_reply "none"])).
  { vm_compute. reflexivity. }
  split; [exact Hfind|]. split; [exact Hres|]. split; [exact Hhandle|].
  destruct (handoff_runs_on_enter (H := sample_rendering) call_to_checkout
              "item_2" _ s _ _ Checkout _ Hfind Hres Hhandle)
    as (Hcur & Hprev & _ & _ & Heff).
  split; [exact Hcur|]. split; [exact Hprev|exact Heff].
Defined.
